(** * LinkedIn automation service: session control, hashtag harvest, comment posting

    A shallow embedding of [Linkedin-script.py].  The browser, the clock, the
    random source and the file system are an environment the program talks
    to: they are gathered in one interface, [Browser], over an abstract world
    type.  Python's module globals ([driver], [wait], the configuration read
    at import time) are fields of an explicit [state]; every function of the
    script is a computation in a state-and-exception monad [M].  The [while]
    loop of [scrape_hashtag] has no bound in the source, so it is run with
    fuel and a computation that exhausts it yields [None]. *)

From Stdlib Require Import Ascii String ZArith Lia.
From stdpp Require Import base option list strings gmap sets pretty.

Local Open Scope Z_scope.
Set Warnings "-register-all,-clear-no-such-hyp".

(** ** Python values that cross the HTTP boundary *)

(** A finite binary float is [m * 2^e]; [NaN] and the infinities are kept
    apart because [int()] treats them differently. *)
Inductive pyfloat :=
| FNaN
| FInf (negative : bool)
| FFinite (m e : Z).

(** What [request.get_json()] can hand back: [JNull] is Python's [None]. *)
Inductive json :=
| JNull
| JBool (b : bool)
| JInt (z : Z)
| JFloat (f : pyfloat)
| JStr (s : string)
| JArr (items : list json)
| JObj (fields : list (string * json)).

(** Exceptions the script can meet.  All of them derive from [Exception];
    only [TimeoutException] is matched by the handler of [comment]. *)
Inductive exn :=
| TimeoutException
| WebDriverException
| KeyError
| TypeError
| AttributeError
| ValueError
| OverflowError
| BadRequest
| UnsupportedMediaType
| OSError.

Inductive outcome (A : Type) :=
| Ret (a : A)
| Raise (e : exn).
Arguments Ret {A} a.
Arguments Raise {A} e.

Definition is_timeout (e : exn) : bool :=
  match e with TimeoutException => true | _ => false end.

(** Truth value of a Python object ([if x], [not x], [x or y]). *)
Definition truthy (j : json) : bool :=
  match j with
  | JNull => false
  | JBool b => b
  | JInt z => negb (z =? 0)
  | JFloat (FFinite m _) => negb (m =? 0)
  | JFloat _ => true
  | JStr s => negb (String.eqb s "")
  | JArr l => match l with [] => false | _ => true end
  | JObj l => match l with [] => false | _ => true end
  end.

Fixpoint assoc (k : string) (fields : list (string * json)) : option json :=
  match fields with
  | [] => None
  | (k', v) :: rest => if String.eqb k k' then Some v else assoc k rest
  end.

(** [data.get(key, default)]: only a dict has the method. *)
Definition dict_get (data : json) (key : string) (default : json) : outcome json :=
  match data with
  | JObj fields => Ret (from_option id default (assoc key fields))
  | _ => Raise AttributeError
  end.

(** [data[key]] with a string key. *)
Definition subscript (data : json) (key : string) : outcome json :=
  match data with
  | JObj fields =>
      match assoc key fields with Some v => Ret v | None => Raise KeyError end
  | _ => Raise TypeError
  end.

(** The parts of Python's built-ins that the script calls and that are not
    worth re-implementing: [int] on a [str] ([None] when it raises
    [ValueError]) and [str] on floats, lists and dicts. *)
Record Builtins := {
  int_of_str : string -> option Z;
  str_of_compound : json -> string }.

(** [int(x)] *)
Definition py_int (P : Builtins) (x : json) : outcome Z :=
  match x with
  | JInt z => Ret z
  | JBool b => Ret (if b then 1 else 0)
  | JFloat FNaN => Raise ValueError
  | JFloat (FInf _) => Raise OverflowError
  | JFloat (FFinite m e) =>
      Ret (if 0 <=? e then m * 2 ^ e else Z.quot m (2 ^ (- e)))
  | JStr s =>
      match int_of_str P s with Some z => Ret z | None => Raise ValueError end
  | JNull | JArr _ | JObj _ => Raise TypeError
  end.

(** [str(x)] *)
Definition py_str (P : Builtins) (x : json) : string :=
  match x with
  | JStr s => s
  | JNull => "None"
  | JBool true => "True"
  | JBool false => "False"
  | JInt z => pretty z
  | _ => str_of_compound P x
  end.

(** Code points for which [str.isspace] holds, below 256. *)
Definition is_space (c : ascii) : bool :=
  let n := nat_of_ascii c in
  ((9 <=? n)%nat && (n <=? 13)%nat) || ((28 <=? n)%nat && (n <=? 32)%nat)
  || (n =? 133)%nat || (n =? 160)%nat.

Fixpoint lstrip_by (p : ascii -> bool) (s : string) : string :=
  match s with
  | String c rest => if p c then lstrip_by p rest else s
  | EmptyString => EmptyString
  end.

Fixpoint rstrip_by (p : ascii -> bool) (s : string) : string :=
  match s with
  | String c rest =>
      match rstrip_by p rest with
      | EmptyString => if p c then EmptyString else String c EmptyString
      | r => String c r
      end
  | EmptyString => EmptyString
  end.

(** [s.strip()] *)
Definition strip (s : string) : string := rstrip_by is_space (lstrip_by is_space s).

(** [s.lstrip("#")] *)
Definition lstrip_hash (s : string) : string :=
  lstrip_by (fun c => Ascii.eqb c "#"%char) s.

(** Iterating a value in a [for] loop. *)
Definition py_iter (x : json) : outcome (list json) :=
  match x with
  | JStr s => Ret (map (fun c => JStr (String c EmptyString)) (list_ascii_of_string s))
  | JArr l => Ret l
  | JObj fields => Ret (map (fun kv => JStr (fst kv)) fields)
  | _ => Raise TypeError
  end.

(** [l[:n]] *)
Definition slice_to {A} (l : list A) (n : Z) : list A :=
  if 0 <=? n then take (Z.to_nat n) l
  else take (Z.to_nat (Z.of_nat (length l) + n)) l.

(** ** SELECTORS *)

Definition POST_CONTAINER_XPATHS : list string :=
  [ "//div[@data-urn and .//span[contains(@class,'update-components-actor__name')]]";
    "//div[@data-urn and .//a[contains(@href,'/in/')]]";
    "//div[@data-urn]" ]%string.

Definition AUTHOR_XPATHS : list string :=
  [ ".//span[contains(@class,'update-components-actor__name')]";
    ".//a[contains(@href,'/in/')][1]" ]%string.

Definition TEXT_XPATHS : list string :=
  [ ".//div[contains(@class,'update-components-text')]//span[@dir='ltr']";
    ".//span[@dir='ltr']" ]%string.

Definition LOGIN_OK : list string :=
  [ "//input[contains(@aria-label,'Search')]";
    "//button[contains(@aria-label,'Start a post')]";
    "//*[contains(text(),'Start a post')]" ]%string.

Definition LOGIN_PAGE : list string :=
  [ "//input[@name='session_key']";
    "//input[@name='session_password']" ]%string.

Definition CHECKPOINT : list string :=
  [ "//*[contains(translate(.,'VERIFY','verify'),'verify')]";
    "//*[contains(translate(.,'CHALLENGE','challenge'),'challenge')]" ]%string.

Definition COMMENT_BUTTON : string := "//button[contains(@aria-label,'Comment')]".
Definition COMMENT_BOX : string := "//div[contains(@data-placeholder,'Add a comment')]".
Definition COMMENT_SUBMIT : string :=
  "//button[contains(@class,'comments-comment-box__submit-button')]".

Definition DEBUG_DIR : string := "debug_dumps".

(** ** The environment *)

Definition session := nat.
Definition elem := nat.

Record cookie := {
  cookie_name : string;
  cookie_value : string;
  cookie_domain : string;
  cookie_path : string;
  cookie_secure : bool;
  cookie_httpOnly : bool }.

Inductive condition :=
| element_to_be_clickable (xpath : string)
| presence_of_element_located (xpath : string).

(** Selenium, the clock, [random] and the dump files, as transitions of a
    world [W].  A browser call answers or raises.  [latency] is the time, in
    milliseconds, that the call which produced a world took; [random_bits]
    is the raw draw behind [random.uniform].  [open_file] and [write_file]
    are the [open(path, "w")] and the [f.write] of [dump_debug]: like the
    driver calls, they can raise. *)
Record Browser (W : Type) := {
  Chrome : list string -> W -> outcome session * W;
  get : session -> json -> W -> outcome () * W;
  add_cookie : session -> cookie -> W -> outcome () * W;
  find_elements : session -> string -> W -> outcome (list elem) * W;
  execute_script : session -> string -> W -> outcome () * W;
  get_attribute : elem -> string -> W -> outcome (option string) * W;
  find_in : elem -> string -> W -> outcome (list elem) * W;
  text : elem -> W -> outcome string * W;
  click : elem -> W -> outcome () * W;
  send_keys : elem -> json -> W -> outcome () * W;
  until : session -> Z -> condition -> W -> outcome elem * W;
  page_source : session -> W -> outcome string * W;
  open_file : string -> W -> outcome () * W;
  write_file : string -> string -> W -> outcome () * W;
  save_screenshot : session -> string -> W -> outcome () * W;
  random_bits : W -> N * W;
  latency : W -> N }.
Arguments Chrome {W}.
Arguments get {W}.
Arguments add_cookie {W}.
Arguments find_elements {W}.
Arguments execute_script {W}.
Arguments get_attribute {W}.
Arguments find_in {W}.
Arguments text {W}.
Arguments click {W}.
Arguments send_keys {W}.
Arguments until {W}.
Arguments page_source {W}.
Arguments open_file {W}.
Arguments write_file {W}.
Arguments save_screenshot {W}.
Arguments random_bits {W}.
Arguments latency {W}.

(** Observations kept for the proofs; the program never reads them. *)
Inductive event :=
| EvLaunch (options : list string)
| EvDump (tag : string)
| EvUrn (urn : string).

Definition dump_tag (e : event) : option string :=
  match e with EvDump tag => Some tag | _ => None end.
Definition urn_seen (e : event) : option string :=
  match e with EvUrn u => Some u | _ => None end.
Definition is_launch (e : event) : bool :=
  match e with EvLaunch _ => true | _ => false end.

(** Tags of the [dump_debug] calls, identifiers read from cards, and number
    of browser launches recorded in a trace. *)
Definition dumps_of (tr : list event) : list string := omap dump_tag tr.
Definition urns_of (tr : list event) : list string := omap urn_seen tr.
Definition launches_of (tr : list event) : nat := length (filter is_launch tr).

(** Module globals, the clock in milliseconds, the trace and the world. *)
Record state (W : Type) := {
  LINKEDIN_SESSION_ID : option string;
  HEADLESS : bool;
  driver : option session;
  wait : option (session * Z);
  clock : Z;
  trace : list event;
  world : W }.
Arguments LINKEDIN_SESSION_ID {W}.
Arguments HEADLESS {W}.
Arguments driver {W}.
Arguments wait {W}.
Arguments clock {W}.
Arguments trace {W}.
Arguments world {W}.

Record post := { author : string; text_ : string; url : string }.

Record response := { body : json; status : Z }.

(** A request, as the handlers see it: the result of
    [request.get_json()], which raises on a body that is not JSON. *)
Record request := { get_json : outcome json }.

(** ** The state-and-exception monad *)

Section Program.
Context {W : Type} (B : Browser W) (P : Builtins).

(** [None] is fuel exhaustion.  Only the harvest loop can cause it: the
    polling loop of [wait_for_any] is given enough fuel for its timeout
    (lemma [Total_wait_for_any]). *)
Definition M (A : Type) : Type := state W -> option (outcome A * state W).

Definition ret {A} (a : A) : M A := fun s => Some (Ret a, s).
Definition raise {A} (e : exn) : M A := fun s => Some (Raise e, s).
Definition bind {A C} (m : M A) (f : A -> M C) : M C :=
  fun s =>
    match m s with
    | Some (Ret a, s') => f a s'
    | Some (Raise e, s') => Some (Raise e, s')
    | None => None
    end.
Definition out_of_fuel {A} : M A := fun _ => None.

(** A pure computation that may raise. *)
Definition lift {A} (o : outcome A) : M A := fun s => Some (o, s).

(** [try: m except <those e with catches e>: h] *)
Definition try_except {A} (m : M A) (catches : exn -> bool) (h : M A) : M A :=
  fun s =>
    match m s with
    | Some (Raise e, s') => if catches e then h s' else Some (Raise e, s')
    | r => r
    end.

Notation "x <- m ;; k" := (bind m (fun x => k))
  (at level 100, m at next level, right associativity).
Notation "m ;;; k" := (bind m (fun _ => k))
  (at level 100, right associativity).

Definition set_world (w : W) (dt : Z) (s : state W) : state W :=
  {| LINKEDIN_SESSION_ID := LINKEDIN_SESSION_ID s; HEADLESS := HEADLESS s;
     driver := driver s; wait := wait s; clock := clock s + dt;
     trace := trace s; world := w |}.

Definition set_driver (d : session) (s : state W) : state W :=
  {| LINKEDIN_SESSION_ID := LINKEDIN_SESSION_ID s; HEADLESS := HEADLESS s;
     driver := Some d; wait := wait s; clock := clock s;
     trace := trace s; world := world s |}.

Definition set_wait (d : session) (timeout : Z) (s : state W) : state W :=
  {| LINKEDIN_SESSION_ID := LINKEDIN_SESSION_ID s; HEADLESS := HEADLESS s;
     driver := driver s; wait := Some (d, timeout); clock := clock s;
     trace := trace s; world := world s |}.

Definition add_event (e : event) (s : state W) : state W :=
  {| LINKEDIN_SESSION_ID := LINKEDIN_SESSION_ID s; HEADLESS := HEADLESS s;
     driver := driver s; wait := wait s; clock := clock s;
     trace := trace s ++ [e]; world := world s |}.

(** A browser call: the world moves and the clock advances by the time the
    call took. *)
Definition call {A} (op : W -> outcome A * W) : M A :=
  fun s => let '(o, w) := op (world s) in Some (o, set_world w (Z.of_N (latency B w)) s).

(** A world transition that cannot fail and takes no time of its own. *)
Definition quick {A} (op : W -> A * W) : M A :=
  fun s => let '(a, w) := op (world s) in Some (Ret a, set_world w 0 s).

Definition log (e : event) : M () := fun s => Some (Ret (), add_event e s).

(** [time.time()], in milliseconds, and [time.sleep]. *)
Definition time_ms : M Z := fun s => Some (Ret (clock s), s).
Definition sleep (ms : Z) : M () :=
  fun s => Some (Ret (), set_world (world s) (Z.max 0 ms) s).

(** [random.uniform(lo, hi)] on a millisecond grid. *)
Definition uniform (lo hi : Z) : M Z :=
  r <- quick (random_bits B) ;;
  ret (lo + Z.of_N r mod (hi - lo + 1)).

(** A method call on the global [driver]; on [None] Python raises
    [AttributeError]. *)
Definition with_driver {A} (f : session -> M A) : M A :=
  fun s => match driver s with Some d => f d s | None => raise AttributeError s end.

Definition with_wait {A} (f : session -> Z -> M A) : M A :=
  fun s => match wait s with Some (d, t) => f d t s | None => raise AttributeError s end.

(** ** UTILS *)

(** Nothing here is guarded: the [open], the read of [driver.page_source],
    the write and the screenshot each let their exception through.  The file
    is opened before [driver.page_source] is evaluated. *)
Definition dump_debug (tag : string) : M () :=
  log (EvDump tag) ;;;
  fun s =>
    match driver s with
    | None => ret () s
    | Some d =>
        (ts <- time_ms ;;
         let ts := pretty (ts / 1000) in
         let html := DEBUG_DIR +:+ "/" +:+ tag +:+ "_" +:+ ts +:+ ".html" in
         call (open_file B html) ;;;
         src <- call (page_source B d) ;;
         call (write_file B html src) ;;;
         call (save_screenshot B d (DEBUG_DIR +:+ "/" +:+ tag +:+ "_" +:+ ts +:+ ".png"))) s
    end.

(** The [for xp in xpaths] of [wait_for_any]: [true] is its [return True]. *)
Fixpoint any_present (xpaths : list string) : M bool :=
  match xpaths with
  | [] => ret false
  | xp :: rest =>
      els <- with_driver (fun d => call (find_elements B d xp)) ;;
      match els with
      | [] => any_present rest
      | _ => ret true
      end
  end.

Fixpoint wait_for_any_loop (polls : nat) (xpaths : list string) (deadline : Z) : M bool :=
  now <- time_ms ;;
  if now <? deadline then
    match polls with
    | O => out_of_fuel
    | S polls' =>
        found <- any_present xpaths ;;
        if found then ret true
        else sleep 500 ;;; wait_for_any_loop polls' xpaths deadline
    end
  else ret false.

(** Every turn of the loop sleeps half a second, so a wait of [timeout]
    milliseconds polls at most this many times. *)
Definition poll_bound (timeout : Z) : nat := Z.to_nat ((timeout + 499) / 500).

(** [timeout] is in milliseconds: 25000 is the default of the source. *)
Definition wait_for_any (xpaths : list string) (timeout : Z) : M bool :=
  now <- time_ms ;;
  wait_for_any_loop (poll_bound timeout) xpaths (now + timeout).

Fixpoint human_scroll (passes : nat) : M () :=
  match passes with
  | O => ret ()
  | S passes' =>
      with_driver (fun d => call (execute_script B d
        "window.scrollTo(0, document.body.scrollHeight * 0.4);")) ;;;
      (t <- uniform 1500 2500 ;; sleep t) ;;;
      with_driver (fun d => call (execute_script B d
        "window.scrollTo(0, document.body.scrollHeight);")) ;;;
      (t <- uniform 1500 2500 ;; sleep t) ;;;
      human_scroll passes'
  end.

(** ** BROWSER INIT *)

Definition token_missing (s : state W) : bool :=
  match LINKEDIN_SESSION_ID s with
  | None => true
  | Some t => String.eqb t ""
  end.

Definition chrome_options (headless : bool) : list string :=
  [ "--disable-blink-features=AutomationControlled"; "--disable-notifications";
    "--no-sandbox"; "--disable-dev-shm-usage"; "--window-size=1920,1080" ]%string
  ++ (if headless then ["--headless=new"%string] else []).

Definition li_at (value : string) : cookie :=
  {| cookie_name := "li_at"; cookie_value := value; cookie_domain := ".linkedin.com";
     cookie_path := "/"; cookie_secure := true; cookie_httpOnly := true |}.

(** Lines 96-124: start Chrome, bind the globals, inject the cookie and open
    the feed. *)
Definition launch_and_inject : M () :=
  fun s =>
    (let options := chrome_options (HEADLESS s) in
     log (EvLaunch options) ;;;
     d <- call (Chrome B options) ;;
     (fun s' => ret () (set_driver d s')) ;;;
     (fun s' => ret () (set_wait d 25000 s')) ;;;
     with_driver (fun d => call (get B d (JStr "https://www.linkedin.com/"))) ;;;
     sleep 2000 ;;;
     with_driver (fun d => call (add_cookie B d (li_at (default "" (LINKEDIN_SESSION_ID s))))) ;;;
     with_driver (fun d => call (get B d (JStr "https://www.linkedin.com/feed/"))) ;;;
     sleep 3000) s.

(** Lines 142-155. *)
Definition detect_login : M bool :=
  ok <- wait_for_any LOGIN_OK 25000 ;;
  if ok then ret true
  else
    cp <- wait_for_any CHECKPOINT 3000 ;;
    if cp then dump_debug "checkpoint" ;;; ret false
    else
      lp <- wait_for_any LOGIN_PAGE 3000 ;;
      if lp then dump_debug "login_page" ;;; ret false
      else dump_debug "unknown_state" ;;; ret false.

Definition initialize_browser : M bool :=
  fun s =>
    match driver s with
    | Some _ => ret true s
    | None =>
        if token_missing s then ret false s
        else
          try_except (launch_and_inject ;;; detect_login) (fun _ => true)
            (dump_debug "init_failed" ;;; ret false) s
    end.

(** ** SCRAPER *)

Definition post_url (urn : string) : string :=
  "https://www.linkedin.com/feed/update/" +:+ urn +:+ "/".

(** [next((el.text.strip() for xp in xpaths for el in card.find_elements(xp)), "")]:
    the generator is lazy, so the search stops at the first element of the
    first expression that matches. *)
Fixpoint first_text (xpaths : list string) (card : elem) : M string :=
  match xpaths with
  | [] => ret ""%string
  | xp :: rest =>
      els <- call (find_in B card xp) ;;
      match els with
      | el :: _ => t <- call (text B el) ;; ret (strip t)
      | [] => first_text rest card
      end
  end.

(** The [for card in ...] of lines 184-209; returning before the end of the
    list is its [break]. *)
Fixpoint scan_cards (max_posts : Z) (cards : list elem)
    (posts : list post) (seen : gset string) : M (list post * gset string) :=
  match cards with
  | [] => ret (posts, seen)
  | card :: rest =>
      urn <- call (get_attribute B card "data-urn") ;;
      match urn with
      | None => scan_cards max_posts rest posts seen
      | Some u =>
          if String.eqb u "" then scan_cards max_posts rest posts seen
          else
            log (EvUrn u) ;;;
            if bool_decide (u ∈ seen) then scan_cards max_posts rest posts seen
            else
              let seen := {[u]} ∪ seen in
              a <- first_text AUTHOR_XPATHS card ;;
              t <- first_text TEXT_XPATHS card ;;
              let posts := posts ++ [{| author := a; text_ := t; url := post_url u |}] in
              if max_posts <=? Z.of_nat (length posts) then ret (posts, seen)
              else scan_cards max_posts rest posts seen
      end
  end.

(** The [while len(posts) < max_posts] of lines 183-211. *)
Fixpoint harvest_loop (fuel : nat) (chosen_xpath : string) (max_posts : Z)
    (posts : list post) (seen : gset string) : M (list post) :=
  if Z.of_nat (length posts) <? max_posts then
    match fuel with
    | O => out_of_fuel
    | S fuel' =>
        cards <- with_driver (fun d => call (find_elements B d chosen_xpath)) ;;
        r <- scan_cards max_posts cards posts seen ;;
        human_scroll 1 ;;;
        harvest_loop fuel' chosen_xpath max_posts r.1 r.2
    end
  else ret (slice_to posts max_posts).

(** [next((xp for xp in xpaths if driver.find_elements(By.XPATH, xp)), None)] *)
Fixpoint choose_xpath (xpaths : list string) : M (option string) :=
  match xpaths with
  | [] => ret None
  | xp :: rest =>
      els <- with_driver (fun d => call (find_elements B d xp)) ;;
      match els with
      | [] => choose_xpath rest
      | _ => ret (Some xp)
      end
  end.

(** The candidates are non-empty strings, so [not chosen_xpath] holds only
    for [None]. *)
Definition scrape_hashtag (fuel : nat) (hashtag : string) (max_posts : Z) : M (list post) :=
  let url := "https://www.linkedin.com/feed/hashtag/" +:+ hashtag +:+ "/?sortBy=RECENT" in
  with_driver (fun d => call (get B d (JStr url))) ;;;
  sleep 3000 ;;;
  human_scroll 2 ;;;
  chosen_xpath <- choose_xpath POST_CONTAINER_XPATHS ;;
  match chosen_xpath with
  | None => dump_debug "no_posts" ;;; ret []
  | Some xp => harvest_loop fuel xp max_posts [] ∅
  end.

(** ** API ROUTES *)

Definition jsonify_post (p : post) : json :=
  JObj [("author", JStr (author p)); ("text", JStr (text_ p)); ("url", JStr (url p))]%string.

Definition init_failed_response : response :=
  {| body := JObj [("error", JStr "browser init failed")]%string; status := 500 |}.
Definition no_posts_response : response :=
  {| body := JObj [("error", JStr "no posts found")]%string; status := 404 |}.
Definition posts_response (results : list post) : response :=
  {| body := JArr (map jsonify_post results); status := 200 |}.
Definition success_response : response :=
  {| body := JObj [("status", JStr "success")]%string; status := 200 |}.
Definition failed_response : response :=
  {| body := JObj [("status", JStr "failed")]%string; status := 500 |}.

(** Lines 228-231: [int(data.get("max_posts", 5))] under a bare [except]. *)
Definition parse_max_posts (data : json) : Z :=
  match dict_get data "max_posts" (JInt 5) with
  | Ret v => match py_int P v with Ret z => z | Raise _ => 5 end
  | Raise _ => 5
  end.

(** Line 234, applied to the value of lines 228-231. *)
Definition effective_cap (data : json) : Z :=
  Z.max 1 (Z.min (parse_max_posts data) 25).

Definition scrape (fuel : nat) (req : request) : M response :=
  ok <- initialize_browser ;;
  if negb ok then ret init_failed_response
  else
    j <- lift (get_json req) ;;
    let data := if truthy j then j else JObj [] in
    h <- lift (dict_get data "hashtag" (JStr "hiring")) ;;
    let hashtag := strip (lstrip_hash (py_str P h)) in
    let max_posts := effective_cap data in
    results <- scrape_hashtag fuel hashtag max_posts ;;
    match results with
    | [] => ret no_posts_response
    | _ => ret (posts_response results)
    end.

(** The [for ch in data["comment"]] of lines 263-265. *)
Fixpoint type_keys (box : elem) (chars : list json) : M () :=
  match chars with
  | [] => ret ()
  | ch :: rest =>
      call (send_keys B box ch) ;;;
      (t <- uniform 50 150 ;; sleep t) ;;;
      type_keys box rest
  end.

(** The three bounded waits of the interaction, each on the global [wait]. *)
Definition wait_trigger : M elem :=
  with_wait (fun d t => call (until B d t (element_to_be_clickable COMMENT_BUTTON))).
Definition wait_input : M elem :=
  with_wait (fun d t => call (until B d t (presence_of_element_located COMMENT_BOX))).
Definition wait_submit : M elem :=
  with_wait (fun d t => call (until B d t (element_to_be_clickable COMMENT_SUBMIT))).

(** What follows the first wait, the second wait and the third wait. *)
Definition after_input (data : json) (box : elem) : M response :=
  txt <- lift (subscript data "comment") ;;
  chars <- lift (py_iter txt) ;;
  type_keys box chars ;;;
  post <- wait_submit ;;
  call (click B post) ;;;
  ret success_response.

Definition after_trigger (data : json) (btn : elem) : M response :=
  call (click B btn) ;;;
  box <- wait_input ;;
  after_input data box.

(** The body of the [try] of lines 254-272. *)
Definition comment_interaction (data : json) : M response :=
  btn <- wait_trigger ;;
  after_trigger data btn.

(** Lines 249-251. *)
Definition open_post (req : request) : M json :=
  data <- lift (get_json req) ;;
  u <- lift (subscript data "post_url") ;;
  with_driver (fun d => call (get B d u)) ;;;
  sleep 3000 ;;;
  ret data.

Definition comment (req : request) : M response :=
  ok <- initialize_browser ;;
  if negb ok then ret init_failed_response
  else
    data <- open_post req ;;
    try_except (comment_interaction data) is_timeout
      (dump_debug "comment_failed" ;;; ret failed_response).

(** The two routes registered with [app.route], and the process serving
    calls one after the other ([threaded=False]).  An exception that leaves
    a handler ends that call only; the globals keep what the call did. *)
Inductive api_call :=
| POST_scrape (req : request)
| POST_comment (req : request).

Definition handle (fuel : nat) (c : api_call) : M response :=
  match c with
  | POST_scrape req => scrape fuel req
  | POST_comment req => comment req
  end.

Fixpoint serve (fuel : nat) (calls : list api_call) (s : state W)
    : option (list (outcome response) * state W) :=
  match calls with
  | [] => Some ([], s)
  | c :: rest =>
      match handle fuel c s with
      | None => None
      | Some (o, s1) =>
          match serve fuel rest s1 with
          | None => None
          | Some (os, s2) => Some (o :: os, s2)
          end
      end
  end.

(** ** The session states of the specification

    The script keeps no state enumeration; the one below follows the
    specification's words (its AuthState and step 4 of ensureReady), to be
    compared with [detect_login]. *)
Inductive AuthState :=
| Authenticated
| CheckpointChallenge
| LoginPageDetected
| UnknownState.

Definition spec_detect_state : M AuthState :=
  ok <- wait_for_any LOGIN_OK 25000 ;;
  if ok then ret Authenticated
  else
    cp <- wait_for_any CHECKPOINT 3000 ;;
    if cp then ret CheckpointChallenge
    else
      lp <- wait_for_any LOGIN_PAGE 3000 ;;
      if lp then ret LoginPageDetected else ret UnknownState.

End Program.

(** Authenticated is the only state in which the session is usable. *)
Definition authenticated (a : AuthState) : bool :=
  match a with Authenticated => true | _ => false end.

(** The tag of the dump that goes with a terminal state, and the time, in
    milliseconds, that detection has spent at least when it settles there. *)
Definition spec_tag (a : AuthState) : list string :=
  match a with
  | Authenticated => []
  | CheckpointChallenge => ["checkpoint"]
  | LoginPageDetected => ["login_page"]
  | UnknownState => ["unknown_state"]
  end%string.

Definition spec_waited (a : AuthState) : Z :=
  match a with
  | Authenticated => 0
  | CheckpointChallenge => 25000
  | LoginPageDetected => 25000 + 3000
  | UnknownState => 25000 + 3000 + 3000
  end.

(** The bounded wait of the comment sequence that ran out of time. *)
Inductive timeout_cause :=
| TriggerWait
| InputWait
| SubmitWait.

(** ** First-seen order

    The distinct members of a list, each at the place of its first
    occurrence. *)
Fixpoint first_seen (l : list string) : list string :=
  match l with
  | [] => []
  | x :: rest => x :: filter (λ y, y ≠ x) (first_seen rest)
  end.

Arguments M W A : clear implicits.
Arguments ret {W A} a s.
Arguments raise {W A} e s.
Arguments bind {W A C} m f s.
Arguments lift {W A} o s.
Arguments try_except {W A} m catches h s.

(** A browser call that always answers. *)
Definition never_raises {W A} (op : W -> outcome A * W) : Prop :=
  ∀ w, ∃ a w', op w = (Ret a, w').

(** A browser on which no call made by the harvest raises. *)
Record calm {W} (B : Browser W) : Prop := {
  calm_get : ∀ d u, never_raises (get B d u);
  calm_find_elements : ∀ d xp, never_raises (find_elements B d xp);
  calm_execute_script : ∀ d js, never_raises (execute_script B d js);
  calm_get_attribute : ∀ el name, never_raises (get_attribute B el name);
  calm_find_in : ∀ el xp, never_raises (find_in B el xp);
  calm_text : ∀ el, never_raises (text B el) }.

(** A machine on which the dump files can be written and the page source
    and the screenshot can be taken. *)
Record sink_works {W} (B : Browser W) : Prop := {
  sink_open_file : ∀ name, never_raises (open_file B name);
  sink_page_source : ∀ d, never_raises (page_source B d);
  sink_write_file : ∀ name src, never_raises (write_file B name src);
  sink_save_screenshot : ∀ d name, never_raises (save_screenshot B d name) }.

(** The same browser on a machine where no screenshot can be taken. *)
Definition without_screenshots {W} (B : Browser W) : Browser W :=
  {| Chrome := Chrome B; get := get B; add_cookie := add_cookie B;
     find_elements := find_elements B; execute_script := execute_script B;
     get_attribute := get_attribute B; find_in := find_in B; text := text B;
     click := click B; send_keys := send_keys B; until := until B;
     page_source := page_source B; open_file := open_file B;
     write_file := write_file B;
     save_screenshot _ _ w := (Raise WebDriverException, w);
     random_bits := random_bits B; latency := latency B |}.

(** ** Scripted pages

    A page that never changes: what each expression finds, what each card
    carries, and how each bounded wait of the comment sequence ends.  Calls
    take no time and the random draw is always the lowest. *)

Record page := {
  launches : bool;
  reachable : json -> bool;
  present : string -> list elem;
  urn_of : elem -> option string;
  inner : elem -> string -> list elem;
  text_of : elem -> string;
  awaited : condition -> outcome elem }.

Definition static (p : page) : Browser () :=
  {| Chrome _ w := (if launches p then Ret 0%nat else Raise WebDriverException, w);
     get _ u w := (if reachable p u then Ret () else Raise WebDriverException, w);
     add_cookie _ _ w := (Ret (), w);
     find_elements _ xp w := (Ret (present p xp), w);
     execute_script _ _ w := (Ret (), w);
     get_attribute el _ w := (Ret (urn_of p el), w);
     find_in el xp w := (Ret (inner p el xp), w);
     text el w := (Ret (text_of p el), w);
     click _ w := (Ret (), w);
     send_keys _ _ w := (Ret (), w);
     until _ _ c w := (awaited p c, w);
     page_source _ w := (Ret ""%string, w);
     open_file _ w := (Ret (), w);
     write_file _ _ w := (Ret (), w);
     save_screenshot _ _ w := (Ret (), w);
     random_bits w := (0%N, w);
     latency _ := 0%N |}.

(** The same page on a machine whose first screenshot fails and whose later
    ones are written; the world counts the screenshots asked for. *)
Definition first_screenshot_fails (p : page) : Browser nat :=
  {| Chrome _ w := (if launches p then Ret 0%nat else Raise WebDriverException, w);
     get _ u w := (if reachable p u then Ret () else Raise WebDriverException, w);
     add_cookie _ _ w := (Ret (), w);
     find_elements _ xp w := (Ret (present p xp), w);
     execute_script _ _ w := (Ret (), w);
     get_attribute el _ w := (Ret (urn_of p el), w);
     find_in el xp w := (Ret (inner p el xp), w);
     text el w := (Ret (text_of p el), w);
     click _ w := (Ret (), w);
     send_keys _ _ w := (Ret (), w);
     until _ _ c w := (awaited p c, w);
     page_source _ w := (Ret ""%string, w);
     open_file _ w := (Ret (), w);
     write_file _ _ w := (Ret (), w);
     save_screenshot _ _ w :=
       (match w with O => Raise WebDriverException | S _ => Ret () end, S w);
     random_bits w := (0%N, w);
     latency _ := 0%N |}.

Definition no_builtins : Builtins :=
  {| int_of_str _ := None; str_of_compound _ := ""%string |}.

(** The process right after import: no driver yet. *)
Definition boot (token : option string) : state () :=
  {| LINKEDIN_SESSION_ID := token; HEADLESS := false; driver := None; wait := None;
     clock := 0; trace := []; world := () |}.

(** The same, before any screenshot was asked for. *)
Definition boot_counting (token : option string) : state nat :=
  {| LINKEDIN_SESSION_ID := token; HEADLESS := false; driver := None; wait := None;
     clock := 0; trace := []; world := 0%nat |}.

Definition xpath_in (xs : list string) (xp : string) : bool :=
  bool_decide (xp ∈ xs).

(** Signed in, with a feed of four cards: the third repeats the identifier of
    the first and the fourth carries an empty one. *)
Definition feed_page : page :=
  {| launches := true;
     reachable _ := true;
     present xp :=
       if xpath_in LOGIN_OK xp then [100%nat]
       else if xpath_in POST_CONTAINER_XPATHS xp then [1; 2; 3; 4]%nat else [];
     urn_of el :=
       match el with
       | 1%nat => Some "urn:a" | 2%nat => Some "urn:b" | 3%nat => Some "urn:a"
       | 4%nat => Some "" | _ => None
       end%string;
     inner el xp := if xpath_in AUTHOR_XPATHS xp then [(10 + el)%nat] else [];
     text_of el := if (el <? 20)%nat then " Ada "%string else ""%string;
     awaited _ := Ret 7%nat |}.

(** The sign-in form is shown instead of the feed. *)
Definition login_wall : page :=
  {| launches := true; reachable _ := true;
     present xp := if xpath_in LOGIN_PAGE xp then [1%nat] else [];
     urn_of _ := None; inner _ _ := []; text_of _ := ""%string;
     awaited _ := Raise TimeoutException |}.

(** Signed in, with seven cards of distinct identifiers "urn:1" to "urn:7". *)
Definition seven_posts : page :=
  {| launches := true; reachable _ := true;
     present xp :=
       if xpath_in LOGIN_OK xp then [100%nat]
       else if xpath_in POST_CONTAINER_XPATHS xp then [1; 2; 3; 4; 5; 6; 7]%nat else [];
     urn_of el := Some ("urn:" +:+ pretty el);
     inner _ _ := []; text_of _ := ""%string;
     awaited _ := Ret 7%nat |}.

(** Signed in, but the hashtag feed shows no post container. *)
Definition empty_feed : page :=
  {| launches := true; reachable _ := true;
     present xp := if xpath_in LOGIN_OK xp then [100%nat] else [];
     urn_of _ := None; inner _ _ := []; text_of _ := ""%string;
     awaited _ := Raise TimeoutException |}.

(** Configurations and requests used to run the model. *)
Definition token : option string := Some "AQEDAT-session"%string.

(** A process whose session is up. *)
Definition ready : state () :=
  {| LINKEDIN_SESSION_ID := token; HEADLESS := false; driver := Some 0%nat;
     wait := Some (0%nat, 25000); clock := 5000; trace := []; world := () |}.

Definition json_request (j : json) : request := {| get_json := Ret j |}.

(** Signed in; the submit control of the comment box never becomes clickable. *)
Definition submit_missing : page :=
  {| launches := true; reachable _ := true;
     present xp := if xpath_in LOGIN_OK xp then [100%nat] else [];
     urn_of _ := None; inner _ _ := []; text_of _ := ""%string;
     awaited c :=
       match c with
       | element_to_be_clickable xp =>
           if String.eqb xp COMMENT_SUBMIT then Raise TimeoutException else Ret 7%nat
       | presence_of_element_located _ => Ret 8%nat
       end |}.

(** Signed in; only the home page and the feed can be opened. *)
Definition hashtag_unreachable : page :=
  {| launches := true;
     reachable u :=
       match u with
       | JStr a => xpath_in ["https://www.linkedin.com/"; "https://www.linkedin.com/feed/"]%string a
       | _ => false
       end;
     present xp := if xpath_in LOGIN_OK xp then [100%nat] else [];
     urn_of _ := None; inner _ _ := []; text_of _ := ""%string;
     awaited _ := Ret 7%nat |}.

Definition hello : request :=
  json_request (JObj [("post_url", JStr "https://www.linkedin.com/feed/update/urn:a/");
                      ("comment", JStr "hi")]%string).

(** ** Vocabulary of the proofs *)

Section Vocabulary.
Context {W : Type} (B : Browser W).

(** What a computation may do to the state besides moving the world: the
    globals stay, the clock does not go back, and the trace grows by events
    that satisfy [ok]. *)
Definition logs (ok : event -> Prop) (s s' : state W) : Prop :=
  LINKEDIN_SESSION_ID s' = LINKEDIN_SESSION_ID s ∧ HEADLESS s' = HEADLESS s ∧
  driver s' = driver s ∧ wait s' = wait s ∧ clock s <= clock s' ∧
  ∃ evs, trace s' = trace s ++ evs ∧ Forall ok evs.

Definition Logs {A} (ok : event -> Prop) (m : M W A) : Prop :=
  ∀ s o s', m s = Some (o, s') → logs ok s s'.

Definition nothing : event -> Prop := λ _, False.

(** A computation that always comes back, with a value or an exception. *)
Definition Total {A} (m : M W A) : Prop := ∀ s, ∃ o s', m s = Some (o, s').

Definition is_urn (e : event) : Prop := ∃ u, e = EvUrn u.
Definition is_dump (e : event) : Prop := ∃ tag, e = EvDump tag.

(** The loop invariant: the posts collected so far are the identifiers read
    since the loop began, in first-seen order, and [seen] holds them. *)
Definition harvested (s0 : state W) (posts : list post) (seen : gset string)
    (s : state W) : Prop :=
  ∃ read, urns_of (trace s) = urns_of (trace s0) ++ read ∧
          map url posts = map post_url (first_seen read) ∧
          (∀ u, u ∈ seen ↔ u ∈ read).

(** The comment sequence, started in [s], reaches the named wait and that
    wait raises [TimeoutException], leaving [s']. *)
Definition times_out (data : json) (cause : timeout_cause)
    (s s' : state W) : Prop :=
  match cause with
  | TriggerWait => wait_trigger B s = Some (Raise TimeoutException, s')
  | InputWait =>
      ∃ btn s1 s2,
        wait_trigger B s = Some (Ret btn, s1) ∧
        call B (click B btn) s1 = Some (Ret (), s2) ∧
        wait_input B s2 = Some (Raise TimeoutException, s')
  | SubmitWait =>
      ∃ btn s1 s2 box s3 txt chars s4,
        wait_trigger B s = Some (Ret btn, s1) ∧
        call B (click B btn) s1 = Some (Ret (), s2) ∧
        wait_input B s2 = Some (Ret box, s3) ∧
        subscript data "comment" = Ret txt ∧ py_iter txt = Ret chars ∧
        type_keys B box chars s3 = Some (Ret (), s4) ∧
        wait_submit B s4 = Some (Raise TimeoutException, s')
  end.

End Vocabulary.

(** ** Vocabulary of the further properties *)

(** An event that is not a browser launch. *)
Definition no_launch (e : event) : Prop := is_launch e = false.

(** A string that [strip] leaves as it is. *)
Definition trimmed (t : string) : Prop := strip t = t.

(** What every harvested post satisfies: trimmed author and text, and a URL
    built from a non-empty identifier. *)
Definition post_ok (p : post) : Prop :=
  trimmed (author p) ∧ trimmed (text_ p) ∧ ∃ u, u ≠ ""%string ∧ url p = post_url u.

(** The tags with which [initialize_browser] calls [dump_debug]. *)
Definition INIT_TAGS : list string :=
  ["checkpoint"; "login_page"; "unknown_state"; "init_failed"]%string.

(** Chrome cannot be started. *)
Definition no_chrome : page :=
  {| launches := false; reachable _ := true; present _ := [];
     urn_of _ := None; inner _ _ := []; text_of _ := ""%string;
     awaited _ := Raise TimeoutException |}.

(** A [/comment] body with a post URL and no comment. *)
Definition body_without_comment : request :=
  json_request (JObj [("post_url", JStr "https://www.linkedin.com/feed/update/urn:a/")]%string).

(** ** Reasoning about computations *)

Section Frame.
Context {W : Type} (B : Browser W).
Implicit Types s : state W.

Lemma logs_refl ok s : logs ok s s.
Proof. repeat split; try lia. exists []. by rewrite app_nil_r. Qed.

Lemma logs_trans ok s1 s2 s3 : logs ok s1 s2 → logs ok s2 s3 → logs ok s1 s3.
Proof.
  intros (?&?&?&?&?&e1&?&?) (?&?&?&?&?&e2&?&?).
  repeat split; try congruence; try lia.
  exists (e1 ++ e2). split; [|by apply Forall_app].
  rewrite app_assoc. congruence.
Qed.

Lemma logs_weaken (ok ok' : event -> Prop) s s' :
  (∀ e, ok e → ok' e) → logs ok s s' → logs ok' s s'.
Proof.
  intros Hw (?&?&?&?&?&evs&?&?). repeat split; try done.
  exists evs. split; [done|]. eapply Forall_impl; eauto.
Qed.

Lemma logs_nothing_trace s s' : logs nothing s s' → trace s' = trace s.
Proof.
  intros (_&_&_&_&_&evs&->&Hev). destruct evs as [|e evs]; [by rewrite app_nil_r|].
  by inversion Hev.
Qed.

Lemma logs_set_world ok w dt (s : state W) : 0 <= dt → logs ok s (set_world w dt s).
Proof.
  intros. repeat split; simpl; try lia. exists []. by rewrite app_nil_r.
Qed.

Lemma Logs_weaken {A} (ok ok' : event -> Prop) (m : M W A) :
  (∀ e, ok e → ok' e) → Logs ok m → Logs ok' m.
Proof. intros Hw Hm s o s' E. eapply logs_weaken; eauto. Qed.

Lemma Logs_ret {A} ok (a : A) : Logs ok (ret (W:=W) a).
Proof. intros s o s' [= <- <-]. apply logs_refl. Qed.

Lemma Logs_raise {A} ok e : Logs ok (raise (W:=W) (A:=A) e).
Proof. intros s o s' [= <- <-]. apply logs_refl. Qed.

Lemma Logs_lift {A} ok (o : outcome A) : Logs ok (lift (W:=W) o).
Proof. intros s o' s' [= <- <-]. apply logs_refl. Qed.

Lemma Logs_out_of_fuel {A} ok : Logs ok (out_of_fuel (W:=W) (A:=A)).
Proof. intros s o s' [=]. Qed.

Lemma Logs_bind {A C} ok (m : M W A) (f : A → M W C) :
  Logs ok m → (∀ a, Logs ok (f a)) → Logs ok (bind m f).
Proof.
  intros Hm Hf s o s' E. unfold bind in E.
  destruct (m s) as [[[a|e] s1]|] eqn:Em; [| |done].
  - eapply logs_trans; [eapply Hm|eapply Hf]; eauto.
  - injection E as <- <-. eapply Hm; eauto.
Qed.

Lemma Logs_try {A} ok (m : M W A) catches h :
  Logs ok m → Logs ok h → Logs ok (try_except m catches h).
Proof.
  intros Hm Hh s o s' E. unfold try_except in E.
  destruct (m s) as [[[a|e] s1]|] eqn:Em; [| |done].
  - injection E as <- <-. eapply Hm; eauto.
  - destruct (catches e).
    + eapply logs_trans; [eapply Hm|eapply Hh]; eauto.
    + injection E as <- <-. eapply Hm; eauto.
Qed.

Lemma Logs_call {A} ok (op : W → outcome A * W) : Logs ok (call B op).
Proof.
  intros s o s' E. unfold call in E. destruct (op (world s)) as [o' w].
  injection E as <- <-. apply logs_set_world. lia.
Qed.

Lemma Logs_quick {A} ok (op : W → A * W) : Logs ok (quick (W:=W) op).
Proof.
  intros s o s' E. unfold quick in E. destruct (op (world s)) as [o' w].
  injection E as <- <-. by apply logs_set_world.
Qed.

Lemma Logs_sleep ok ms : Logs ok (sleep (W:=W) ms).
Proof. intros s o s' [= <- <-]. apply logs_set_world. lia. Qed.

Lemma Logs_time ok : Logs ok (time_ms (W:=W)).
Proof. intros s o s' [= <- <-]. apply logs_refl. Qed.

Lemma Logs_log (ok : event -> Prop) e : ok e → Logs ok (log (W:=W) e).
Proof.
  intros He s o s' [= <- <-]. repeat split; simpl; try lia.
  exists [e]. split; [done|]. by constructor.
Qed.

Lemma Logs_with_driver {A} ok (f : session → M W A) :
  (∀ d, Logs ok (f d)) → Logs ok (with_driver f).
Proof.
  intros Hf s o s' E. unfold with_driver in E. destruct (driver s).
  - eapply Hf; eauto.
  - eapply Logs_raise; eauto.
Qed.

Lemma Logs_with_wait {A} ok (f : session → Z → M W A) :
  (∀ d t, Logs ok (f d t)) → Logs ok (with_wait f).
Proof.
  intros Hf s o s' E. unfold with_wait in E. destruct (wait s) as [[d t]|].
  - eapply Hf; eauto.
  - eapply Logs_raise; eauto.
Qed.

Lemma Total_ret {A} (a : A) : Total (ret (W:=W) a).
Proof. intros s. by eexists _, _. Qed.

Lemma Total_raise {A} e : Total (raise (W:=W) (A:=A) e).
Proof. intros s. by eexists _, _. Qed.

Lemma Total_lift {A} (o : outcome A) : Total (lift (W:=W) o).
Proof. intros s. by eexists _, _. Qed.

Lemma Total_bind {A C} (m : M W A) (f : A → M W C) :
  Total m → (∀ a, Total (f a)) → Total (bind m f).
Proof.
  intros Hm Hf s. unfold bind. destruct (Hm s) as ([a|e]&s1&->); [apply Hf|].
  by eexists _, _.
Qed.

Lemma Total_try {A} (m : M W A) catches h : Total m → Total h → Total (try_except m catches h).
Proof.
  intros Hm Hh s. unfold try_except. destruct (Hm s) as ([a|e]&s1&->).
  - by eexists _, _.
  - destruct (catches e); [apply Hh|by eexists _, _].
Qed.

Lemma Total_call {A} (op : W → outcome A * W) : Total (call B op).
Proof. intros s. unfold call. destruct (op (world s)). by eexists _, _. Qed.

Lemma Total_quick {A} (op : W → A * W) : Total (quick (W:=W) op).
Proof. intros s. unfold quick. destruct (op (world s)). by eexists _, _. Qed.

Lemma Total_sleep ms : Total (sleep (W:=W) ms).
Proof. intros s. by eexists _, _. Qed.

Lemma Total_time : Total (time_ms (W:=W)).
Proof. intros s. by eexists _, _. Qed.

Lemma Total_log e : Total (log (W:=W) e).
Proof. intros s. by eexists _, _. Qed.

Lemma Total_with_driver {A} (f : session → M W A) : (∀ d, Total (f d)) → Total (with_driver f).
Proof.
  intros Hf s. unfold with_driver. destruct (driver s); [apply Hf|apply Total_raise].
Qed.

Lemma Total_with_wait {A} (f : session → Z → M W A) :
  (∀ d t, Total (f d t)) → Total (with_wait f).
Proof.
  intros Hf s. unfold with_wait. destruct (wait s) as [[d t]|]; [apply Hf|apply Total_raise].
Qed.

End Frame.

Create HintDb frame discriminated.
#[export] Hint Resolve Logs_ret Logs_raise Logs_lift Logs_out_of_fuel Logs_call Logs_quick
  Logs_sleep Logs_time Total_ret Total_raise Total_lift Total_call Total_quick
  Total_sleep Total_time Total_log : frame.

(** One layer of a computation: a bind, a handler, a method call on a
    global, or a case split that the code makes on a value. *)
Ltac frame_step :=
  first
    [ progress intros
    | match goal with
      | |- Logs _ (bind _ _) => apply Logs_bind
      | |- Logs _ (try_except _ _ _) => apply Logs_try
      | |- Logs _ (with_driver _) => apply Logs_with_driver
      | |- Logs _ (with_wait _) => apply Logs_with_wait
      | |- Total (bind _ _) => apply Total_bind
      | |- Total (try_except _ _ _) => apply Total_try
      | |- Total (with_driver _) => apply Total_with_driver
      | |- Total (with_wait _) => apply Total_with_wait
      | |- Logs _ (match ?x with _ => _ end) => destruct x
      | |- Total (match ?x with _ => _ end) => destruct x
      end
    | solve [eauto with frame] ].
Ltac frame := repeat frame_step.

Section Quiet.
Context {W : Type} (B : Browser W).
Implicit Types s : state W.

Lemma Logs_uniform ok lo hi : Logs ok (uniform B lo hi).
Proof. unfold uniform. frame. Qed.

Lemma Total_uniform lo hi : Total (uniform B lo hi).
Proof. unfold uniform. frame. Qed.

Lemma Logs_dump_debug (ok : event -> Prop) tag : ok (EvDump tag) → Logs ok (dump_debug B tag).
Proof.
  intros Hok. unfold dump_debug. apply Logs_bind; [by apply Logs_log|].
  intros _ s o s' E. destruct (driver s); [|by eapply Logs_ret].
  refine ((_ : Logs ok _) s o s' E). frame.
Qed.

End Quiet.

Section Waits.
Context {W : Type} (B : Browser W).
Implicit Types s : state W.

Lemma Logs_any_present ok xpaths : Logs ok (any_present B xpaths).
Proof. induction xpaths; simpl; frame. Qed.

Lemma Total_any_present xpaths : Total (any_present B xpaths).
Proof. induction xpaths; simpl; frame. Qed.

Lemma Logs_wait_for_any_loop ok polls xpaths deadline :
  Logs ok (wait_for_any_loop B polls xpaths deadline).
Proof.
  induction polls; simpl; frame; auto using Logs_any_present.
Qed.

Lemma Logs_wait_for_any ok xpaths timeout : Logs ok (wait_for_any B xpaths timeout).
Proof. unfold wait_for_any. frame. apply Logs_wait_for_any_loop. Qed.

(** Enough polls for the time that is left: the loop ends by itself. *)
Lemma wait_for_any_loop_total polls xpaths deadline s :
  deadline - clock s <= 500 * Z.of_nat polls →
  ∃ o s', wait_for_any_loop B polls xpaths deadline s = Some (o, s').
Proof.
  revert s. induction polls as [|polls IH]; intros s Hleft.
  - simpl. unfold bind, time_ms. destruct (clock s <? deadline) eqn:Hlt.
    + apply Z.ltb_lt in Hlt. lia.
    + by eexists _, _.
  - simpl. unfold bind at 1. unfold time_ms at 1.
    destruct (clock s <? deadline) eqn:Hlt; [|by eexists _, _].
    unfold bind at 1.
    destruct (Total_any_present xpaths s) as (o&s1&E). rewrite E.
    destruct o as [[|]|e]; [by eexists _, _| |by eexists _, _].
    unfold bind, sleep. apply IH. simpl.
    apply Logs_any_present with (ok:=nothing) in E. destruct E as (_&_&_&_&?&_). lia.
Qed.

Lemma poll_bound_enough timeout : timeout <= 500 * Z.of_nat (poll_bound timeout).
Proof.
  unfold poll_bound. destruct (Z.le_gt_cases timeout 0) as [?|Hpos]; [lia|].
  rewrite Z2Nat.id by (apply Z.div_pos; lia).
  pose proof (Z.div_mod (timeout + 499) 500 ltac:(lia)).
  pose proof (Z.mod_pos_bound (timeout + 499) 500 ltac:(lia)). lia.
Qed.

Lemma Total_wait_for_any xpaths timeout : Total (wait_for_any B xpaths timeout).
Proof.
  intros s. unfold wait_for_any, bind, time_ms. apply wait_for_any_loop_total.
  pose proof (poll_bound_enough timeout). lia.
Qed.

(** A wait gives up only once its deadline has passed. *)
Lemma wait_for_any_loop_false polls xpaths deadline s s' :
  wait_for_any_loop B polls xpaths deadline s = Some (Ret false, s') → deadline <= clock s'.
Proof.
  revert s. induction polls as [|polls IH]; intros s; simpl;
    unfold bind at 1; unfold time_ms at 1;
    destruct (clock s <? deadline) eqn:Hlt; try done.
  - intros [= <-]. by apply Z.ltb_ge.
  - unfold bind at 1. destruct (any_present B xpaths s) as [[[[|]|e] s1]|]; try done.
    unfold bind, sleep. apply IH.
  - intros [= <-]. by apply Z.ltb_ge.
Qed.

Lemma wait_for_any_false xpaths timeout s s' :
  wait_for_any B xpaths timeout s = Some (Ret false, s') → clock s + timeout <= clock s'.
Proof. unfold wait_for_any, bind, time_ms. apply wait_for_any_loop_false. Qed.

Lemma Logs_human_scroll ok passes : Logs ok (human_scroll B passes).
Proof. induction passes; simpl; frame; auto using Logs_uniform. Qed.

Lemma Total_human_scroll passes : Total (human_scroll B passes).
Proof. induction passes; simpl; frame; auto using Total_uniform. Qed.

Lemma Total_dump_debug tag : Total (dump_debug B tag).
Proof.
  unfold dump_debug. apply Total_bind; [apply Total_log|].
  intros _ s. destruct (driver s); [|by eexists _, _].
  refine ((_ : Total _) s). frame.
Qed.

Lemma Logs_first_text ok xpaths card : Logs ok (first_text B xpaths card).
Proof. induction xpaths; simpl; frame. Qed.

Lemma Logs_choose_xpath ok xpaths : Logs ok (choose_xpath B xpaths).
Proof. induction xpaths; simpl; frame. Qed.

Lemma Logs_type_keys ok box chars : Logs ok (type_keys B box chars).
Proof. induction chars; simpl; frame; auto using Logs_uniform. Qed.

Lemma Logs_open_post ok req : Logs ok (open_post B req).
Proof. unfold open_post. frame. Qed.

Lemma Logs_comment_interaction ok data : Logs ok (comment_interaction B data).
Proof.
  unfold comment_interaction, after_trigger, after_input, wait_trigger, wait_input,
    wait_submit.
  frame; auto using Logs_type_keys.
Qed.

Lemma Logs_scan_cards max_posts cards posts seen :
  Logs is_urn (scan_cards B max_posts cards posts seen).
Proof.
  revert posts seen. induction cards; intros; simpl; frame;
    auto using Logs_first_text. apply Logs_log. by eexists.
Qed.

Lemma Logs_harvest_loop fuel xp max_posts posts seen :
  Logs is_urn (harvest_loop B fuel xp max_posts posts seen).
Proof.
  revert posts seen. induction fuel; intros; simpl; frame;
    auto using Logs_scan_cards, Logs_human_scroll, Logs_uniform.
Qed.

Lemma Logs_detect_login : Logs is_dump (detect_login B).
Proof.
  unfold detect_login. frame;
    auto using Logs_wait_for_any; apply Logs_dump_debug; by eexists.
Qed.

Lemma Total_detect_login : Total (detect_login B).
Proof.
  unfold detect_login. frame; auto using Total_wait_for_any, Total_dump_debug.
Qed.

End Waits.

Section Session.
Context {W : Type} (B : Browser W).
Implicit Types s : state W.

Lemma bind_inv {A C} (m : M W A) (f : A → M W C) s o s' :
  bind m f s = Some (o, s') →
  (∃ a s1, m s = Some (Ret a, s1) ∧ f a s1 = Some (o, s')) ∨
  (∃ e, m s = Some (Raise e, s') ∧ o = Raise e).
Proof.
  unfold bind. destruct (m s) as [[[a|e] s1]|]; [|intros [= <- <-]|done]; eauto.
Qed.

Lemma bind_ret {A C} (m : M W A) (f : A → M W C) s a s1 :
  m s = Some (Ret a, s1) → bind m f s = f a s1.
Proof. unfold bind. by intros ->. Qed.

Lemma bind_raise {A C} (m : M W A) (f : A → M W C) s e s1 :
  m s = Some (Raise e, s1) → bind m f s = Some (Raise e, s1).
Proof. unfold bind. by intros ->. Qed.

Lemma dumps_of_app tr1 tr2 : dumps_of (tr1 ++ tr2) = dumps_of tr1 ++ dumps_of tr2.
Proof. apply omap_app. Qed.

Lemma urns_of_app tr1 tr2 : urns_of (tr1 ++ tr2) = urns_of tr1 ++ urns_of tr2.
Proof. apply omap_app. Qed.

Lemma dumps_of_urns evs : Forall is_urn evs → dumps_of evs = [].
Proof. induction 1 as [|e evs [u ->]]; simpl; auto. Qed.

Lemma urns_of_dumps evs : Forall is_dump evs → urns_of evs = [].
Proof. induction 1 as [|e evs [u ->]]; simpl; auto. Qed.

(** Every call of [dump_debug] is recorded once, whatever its outcome; an
    exception leaves it only when a driver is bound. *)
Lemma dump_debug_trace tag s o s' :
  dump_debug B tag s = Some (o, s') →
  trace s' = trace s ++ [EvDump tag] ∧ (o = Ret () ∨ is_Some (driver s)).
Proof.
  unfold dump_debug. intros H.
  apply bind_inv in H as [([]&s1&[= <-]&H)|(?&?&?)]; [|done].
  simpl in H. destruct (driver s) as [d|]; [|injection H as <- <-; eauto].
  split; [|eauto]. refine (logs_nothing_trace _ _ ((_ : Logs nothing _) _ o s' H)). frame.
Qed.

(** Without a driver [dump_debug] returns at its guard. *)
Lemma dump_debug_no_driver tag s :
  driver s = None → dump_debug B tag s = Some (Ret (), add_event (EvDump tag) s).
Proof. intros Hd. unfold dump_debug, bind, log. simpl. by rewrite Hd. Qed.

(** Where the files can be written, [dump_debug] returns. *)
Lemma dump_debug_runs tag s :
  sink_works B →
  ∃ s', dump_debug B tag s = Some (Ret (), s') ∧ trace s' = trace s ++ [EvDump tag].
Proof.
  intros [Hopen Hsrc Hwrite Hshot].
  assert (∃ s', dump_debug B tag s = Some (Ret (), s')) as (s'&E).
  { unfold dump_debug, bind, log. simpl. destruct (driver s) as [d|]; simpl; [|eauto].
    unfold time_ms, call. simpl.
    destruct (Hopen (DEBUG_DIR +:+ "/" +:+ tag +:+ "_" +:+ pretty (clock s / 1000) +:+ ".html")
                (world s)) as ([]&w1&->). simpl.
    destruct (Hsrc d w1) as (src&w2&->). simpl.
    destruct (Hwrite (DEBUG_DIR +:+ "/" +:+ tag +:+ "_" +:+ pretty (clock s / 1000) +:+ ".html")
                src w2) as ([]&w3&->). simpl.
    destruct (Hshot d (DEBUG_DIR +:+ "/" +:+ tag +:+ "_" +:+ pretty (clock s / 1000) +:+ ".png")
                w3) as ([]&w4&->). eauto. }
  exists s'. split; [done|]. by apply dump_debug_trace in E as [? _].
Qed.

(** [dump_debug(tag)] followed by [return x], as on the failure paths. *)
Lemma dump_then_ret {A} tag (x : A) s o s' :
  bind (dump_debug B tag) (λ _, ret x) s = Some (o, s') →
  trace s' = trace s ++ [EvDump tag] ∧ driver s' = driver s ∧
  LINKEDIN_SESSION_ID s' = LINKEDIN_SESSION_ID s ∧ clock s <= clock s' ∧
  (o = Ret x ∨ ∃ e, o = Raise e ∧ is_Some (driver s)).
Proof.
  intros H. apply bind_inv in H as [([]&s1&E&[= <- <-])|(e&E&->)].
  all: pose proof (Logs_dump_debug B is_dump tag ltac:(by eexists) _ _ _ E) as (?&_&?&_&?&_).
  all: apply dump_debug_trace in E as [? [?|?]]; repeat split; eauto; done.
Qed.

(** An exception leaves [dump_debug] only where a dump cannot be written. *)
Lemma dump_then_ret_sink {A} tag (x : A) s o s' :
  sink_works B →
  bind (dump_debug B tag) (λ _, ret x) s = Some (o, s') → o = Ret x.
Proof.
  intros Hsink H. destruct (dump_debug_runs tag s Hsink) as (s1&E&_).
  rewrite (bind_ret _ _ _ _ _ E) in H. by injection H as <- _.
Qed.

(** Launching records one launch and, when it goes through, leaves the
    globals bound to the new session. *)
Lemma launch_and_inject_spec s o s' :
  launch_and_inject B s = Some (o, s') →
  LINKEDIN_SESSION_ID s' = LINKEDIN_SESSION_ID s ∧ HEADLESS s' = HEADLESS s ∧
  clock s <= clock s' ∧
  trace s' = trace s ++ [EvLaunch (chrome_options (HEADLESS s))] ∧
  (o = Ret () → ∃ d, driver s' = Some d ∧ wait s' = Some (d, 25000)).
Proof.
  unfold launch_and_inject, bind, log, call, with_driver, sleep, ret, raise. simpl.
  destruct (Chrome B _ _) as [[d|e] w1]; simpl.
  2:{ intros [= <- <-]; simpl. repeat split; try done; lia. }
  destruct (get B d _ w1) as [[[]|e] w2]; simpl.
  2:{ intros [= <- <-]; simpl. repeat split; try done; lia. }
  destruct (add_cookie B d _ w2) as [[[]|e] w3]; simpl.
  2:{ intros [= <- <-]; simpl. repeat split; try done; lia. }
  destruct (get B d _ w3) as [[[]|e] w4]; simpl.
  2:{ intros [= <- <-]; simpl. repeat split; try done; lia. }
  intros [= <- <-]; simpl. repeat split; try done; [lia|eauto].
Qed.

Lemma Total_launch_and_inject : Total (launch_and_inject B).
Proof.
  intros s. unfold launch_and_inject. refine ((_ : Total _) s). frame.
  all: intros s'; by eexists _, _.
Qed.

(** The code's detection against the specification's: same waits, same
    order; a dump with the state's tag unless the state is Authenticated. *)
Lemma detect_login_refines s a s1 :
  sink_works B →
  spec_detect_state B s = Some (Ret a, s1) →
  ∃ s', detect_login B s = Some (Ret (authenticated a), s') ∧
        trace s' = trace s ++ map EvDump (spec_tag a) ∧
        clock s + spec_waited a <= clock s' ∧ driver s' = driver s.
Proof.
  unfold spec_detect_state, detect_login. intros Hsink H.
  apply bind_inv in H as [(ok&sa&E1&H)|(?&?&?)]; [|done].
  rewrite (bind_ret _ _ _ _ _ E1).
  pose proof (Logs_wait_for_any B nothing _ _ _ _ _ E1) as L1.
  pose proof (logs_nothing_trace _ _ L1) as T1. destruct L1 as (_&_&D1&_&C1&_).
  destruct ok.
  { injection H as <- <-. eexists. split; [done|]. simpl.
    rewrite app_nil_r. repeat split; try done; lia. }
  apply wait_for_any_false in E1.
  apply bind_inv in H as [(cp&sb&E2&H)|(?&?&?)]; [|done].
  rewrite (bind_ret _ _ _ _ _ E2).
  pose proof (Logs_wait_for_any B nothing _ _ _ _ _ E2) as L2.
  pose proof (logs_nothing_trace _ _ L2) as T2. destruct L2 as (_&_&D2&_&C2&_).
  destruct cp.
  { injection H as <- <-. destruct (dump_debug_runs "checkpoint" sb Hsink) as (s'&E&T).
    pose proof (Logs_dump_debug B is_dump _ ltac:(by eexists) _ _ _ E) as (_&_&?&_&?&_).
    rewrite (bind_ret _ _ _ _ _ E). eexists. split; [done|]. simpl.
    repeat split; try congruence; lia. }
  apply wait_for_any_false in E2.
  apply bind_inv in H as [(lp&sc&E3&H)|(?&?&?)]; [|done].
  rewrite (bind_ret _ _ _ _ _ E3).
  pose proof (Logs_wait_for_any B nothing _ _ _ _ _ E3) as L3.
  pose proof (logs_nothing_trace _ _ L3) as T3. destruct L3 as (_&_&D3&_&C3&_).
  destruct lp.
  { injection H as <- <-. destruct (dump_debug_runs "login_page" sc Hsink) as (s'&E&T).
    pose proof (Logs_dump_debug B is_dump _ ltac:(by eexists) _ _ _ E) as (_&_&?&_&?&_).
    rewrite (bind_ret _ _ _ _ _ E). eexists. split; [done|]. simpl.
    repeat split; try congruence; lia. }
  apply wait_for_any_false in E3.
  injection H as <- <-. destruct (dump_debug_runs "unknown_state" sc Hsink) as (s'&E&T).
  pose proof (Logs_dump_debug B is_dump _ ltac:(by eexists) _ _ _ E) as (_&_&?&_&?&_).
  rewrite (bind_ret _ _ _ _ _ E). eexists. split; [done|]. simpl.
  repeat split; try congruence; lia.
Qed.

(** What a returned [False] or [True] of [detect_login] says about dumps. *)
Lemma detect_login_spec s o s' :
  detect_login B s = Some (o, s') →
  driver s' = driver s ∧
  ∃ tags, dumps_of (trace s') = dumps_of (trace s) ++ tags ∧
    match o with
    | Ret true => tags = []
    | Ret false => tags ≠ []
    | Raise _ => True
    end.
Proof.
  intros H. split; [by apply Logs_detect_login in H as (_&_&?&_)|].
  unfold detect_login in H.
  assert (Hq : ∀ xs t (s1 s2 : state W) o1,
    wait_for_any B xs t s1 = Some (o1, s2) → dumps_of (trace s2) = dumps_of (trace s1)).
  { intros ????? E. apply Logs_wait_for_any with (ok:=nothing) in E.
    by rewrite (logs_nothing_trace _ _ E). }
  assert (Hd : ∀ tag (s1 s2 : state W) o1,
    bind (dump_debug B tag) (λ _, ret false) s1 = Some (o1, s2) →
    o1 ≠ Ret true ∧ dumps_of (trace s2) = dumps_of (trace s1) ++ [tag]).
  { intros ???? E. apply dump_then_ret in E as (T&_&_&_&Ho). rewrite T, dumps_of_app.
    split; [|done]. by destruct Ho as [->|(e&->&_)]. }
  assert (Hm : ∀ (o1 : outcome bool) (tag : string), o1 ≠ Ret true →
    match o1 with Ret true => [tag] = [] | Ret false => [tag] ≠ [] | Raise _ => True end).
  { by intros [[]|] ??. }
  apply bind_inv in H as [(ok&sa&E1&H)|(e&E1&->)]; apply Hq in E1;
    [|exists []; by rewrite app_nil_r].
  destruct ok. { injection H as <- <-. exists []. by rewrite app_nil_r. }
  apply bind_inv in H as [(cp&sb&E2&H)|(e&E2&->)]; apply Hq in E2;
    [|exists []; rewrite app_nil_r; split; [congruence|done]].
  destruct cp.
  { apply Hd in H as [Ho H]. rewrite H, E2, E1. eexists. split; [reflexivity|by apply Hm]. }
  apply bind_inv in H as [(lp&sc&E3&H)|(e&E3&->)]; apply Hq in E3;
    [|exists []; rewrite app_nil_r; split; [congruence|done]].
  destruct lp; apply Hd in H as [Ho H]; rewrite H, E3, E2, E1;
    (eexists; split; [reflexivity|by apply Hm]).
Qed.

(** [initialize_browser] never runs out of fuel. *)
Lemma initialize_browser_ends s : ∃ o s', initialize_browser B s = Some (o, s').
Proof.
  unfold initialize_browser. destruct (driver s); [by eexists _, _|].
  destruct (token_missing s); [by eexists _, _|].
  unfold try_except.
  destruct (Total_bind _ _ Total_launch_and_inject (λ _, Total_detect_login B) s)
    as ([b|e]&s1&->); [by eexists _, _|]. simpl.
  apply (Total_bind _ _ (Total_dump_debug B "init_failed") (λ _, Total_ret false)).
Qed.

(** Where the dumps can be written it returns a boolean, whatever else the
    browser raises. *)
Lemma initialize_browser_returns s :
  sink_works B → ∃ b s', initialize_browser B s = Some (Ret b, s').
Proof.
  intros Hsink. unfold initialize_browser. destruct (driver s); [by eexists _, _|].
  destruct (token_missing s); [by eexists _, _|].
  unfold try_except.
  destruct (Total_bind _ _ Total_launch_and_inject (λ _, Total_detect_login B) s)
    as ([b|e]&s1&->); [by eexists _, _|]. simpl.
  destruct (dump_debug_runs "init_failed" s1 Hsink) as (s2&E&_).
  rewrite (bind_ret _ _ _ _ _ E). by eexists _, _.
Qed.

(** With a driver already bound the call returns at once. *)
Lemma initialize_browser_bound s d :
  driver s = Some d → initialize_browser B s = Some (Ret true, s).
Proof. unfold initialize_browser. by intros ->. Qed.

(** Without a driver and without a token it returns [False] at once. *)
Lemma initialize_browser_no_token s :
  driver s = None → token_missing s = true → initialize_browser B s = Some (Ret false, s).
Proof. unfold initialize_browser. by intros -> ->. Qed.

Lemma initialize_browser_spec s o s' :
  initialize_browser B s = Some (o, s') →
  LINKEDIN_SESSION_ID s' = LINKEDIN_SESSION_ID s ∧
  ∃ tags, dumps_of (trace s') = dumps_of (trace s) ++ tags ∧
    match o with
    | Ret true => tags = [] ∧ is_Some (driver s')
    | Ret false => (driver s = None ∧ token_missing s = true ∧ s' = s) ∨ tags ≠ []
    | Raise _ => is_Some (driver s') ∧ ∃ before, tags = before ++ ["init_failed"%string]
    end.
Proof.
  unfold initialize_browser. destruct (driver s) as [d|] eqn:Hd.
  { intros [= <- <-]. split; [done|]. exists []. rewrite app_nil_r, Hd. eauto. }
  destruct (token_missing s) eqn:Htok.
  { intros [= <- <-]. split; [done|]. exists []. rewrite app_nil_r. eauto. }
  unfold try_except.
  destruct (bind (launch_and_inject B) _ s) as [[[b|e] s1]|] eqn:E; [| |done].
  - intros [= <- <-]. apply bind_inv in E as [([]&s0&E0&E)|(?&?&?)]; [|done].
    apply launch_and_inject_spec in E0 as (Htk&_&_&T0&Hdrv).
    destruct (Hdrv eq_refl) as (d&Hd0&_).
    pose proof (Logs_detect_login B _ _ _ E) as (Htk'&_).
    apply detect_login_spec in E as (Hd1&tags&T1&Hb).
    split; [congruence|]. exists tags. split.
    { rewrite T1, T0, dumps_of_app. simpl. by rewrite app_nil_r. }
    destruct b; [|by right]. split; [done|]. rewrite Hd1, Hd0. eauto.
  - simpl. intros E2. apply dump_then_ret in E2 as (T2&Hd2&Htk2&_&Ho).
    assert (LINKEDIN_SESSION_ID s1 = LINKEDIN_SESSION_ID s ∧
            ∃ tags, dumps_of (trace s1) = dumps_of (trace s) ++ tags) as (Htk1&tags&T1).
    { apply bind_inv in E as [([]&s0&E0&E)|(e'&E0&_)].
      - apply launch_and_inject_spec in E0 as (Htk&_&_&T0&_).
        pose proof (Logs_detect_login B _ _ _ E) as (Htk'&_).
        apply detect_login_spec in E as (_&tags&T1&_).
        split; [congruence|]. exists tags. rewrite T1, T0, dumps_of_app. simpl.
        by rewrite app_nil_r.
      - apply launch_and_inject_spec in E0 as (Htk&_&_&T0&_).
        split; [done|]. exists []. rewrite T0, dumps_of_app. done. }
    split; [congruence|]. exists (tags ++ ["init_failed"%string]). split.
    + rewrite T2, dumps_of_app, T1. simpl. by rewrite app_assoc.
    + destruct Ho as [->|(e'&->&Hsome)]; [right; by destruct tags|].
      split; [by rewrite Hd2|eauto].
Qed.

End Session.

(** ** First-seen order *)

Lemma elem_of_first_seen x l : x ∈ first_seen l ↔ x ∈ l.
Proof.
  induction l as [|y l IH]; simpl; [done|].
  rewrite !elem_of_cons, list_elem_of_filter, IH.
  destruct (decide (x = y)); tauto.
Qed.

Lemma NoDup_first_seen l : NoDup (first_seen l).
Proof.
  induction l as [|y l IH]; simpl; constructor.
  - by intros [? _]%list_elem_of_filter.
  - by apply NoDup_filter.
Qed.

Lemma first_seen_snoc l u :
  first_seen (l ++ [u]) = if decide (u ∈ l) then first_seen l else first_seen l ++ [u].
Proof.
  induction l as [|y l IH]; simpl; [done|].
  rewrite IH. destruct (decide (u ∈ l)) as [Hin|Hin].
  - rewrite decide_True; [done|rewrite elem_of_cons; auto].
  - rewrite filter_app, filter_cons, filter_nil.
    destruct (decide (u = y)) as [->|Hne].
    + rewrite (decide_True (P:=y ∈ y :: l)); [|rewrite elem_of_cons; auto].
      rewrite decide_False; [|tauto].
      by rewrite app_nil_r.
    + rewrite (decide_False (P:=u ∈ y :: l)); [|rewrite elem_of_cons; tauto].
      rewrite decide_True; done.
Qed.

Lemma append_slash_inj u v : u +:+ "/" = v +:+ "/" → u = v.
Proof.
  revert v. induction u as [|c u IH]; intros [|c' v]; simpl; try done.
  - intros [= <- H]. by destruct v.
  - intros [= -> H]. by destruct u.
  - intros [= -> H]. f_equal. by apply IH.
Qed.

Global Instance post_url_inj : Inj (=) (=) post_url.
Proof. intros u v H. unfold post_url in H. simpl in H. simplify_eq. by apply append_slash_inj. Qed.

Lemma slice_to_all {A} (l : list A) n :
  Z.of_nat (length l) <= Z.max 0 n → slice_to l n = l.
Proof.
  unfold slice_to. intros Hlen. destruct (0 <=? n) eqn:Hn.
  - apply Z.leb_le in Hn. apply take_ge. lia.
  - apply Z.leb_gt in Hn. destruct l; [by rewrite take_nil|simpl in Hlen; lia].
Qed.

Section Harvest.
Context {W : Type} (B : Browser W).
Implicit Types s : state W.

Lemma harvested_quiet s0 posts seen s s' :
  logs nothing s s' → harvested s0 posts seen s → harvested s0 posts seen s'.
Proof.
  intros L (read&?&?&?). exists read. by rewrite (logs_nothing_trace _ _ L).
Qed.

Lemma scan_cards_invariant s0 max_posts cards posts seen s r s' :
  harvested s0 posts seen s →
  Z.of_nat (length posts) < max_posts →
  scan_cards B max_posts cards posts seen s = Some (Ret r, s') →
  harvested s0 r.1 r.2 s' ∧ Z.of_nat (length r.1) <= max_posts.
Proof.
  revert posts seen s. induction cards as [|card cards IH]; intros posts seen s Hinv Hlen; simpl.
  { intros [= <- <-]. split; [done|simpl; lia]. }
  intros H. apply bind_inv in H as [(urn&s1&E1&H)|(?&?&?)]; [|done].
  apply (Logs_call B nothing) in E1.
  pose proof (harvested_quiet _ _ _ _ _ E1 Hinv) as Hinv1.
  destruct urn as [u|]; [|by eapply IH].
  destruct (String.eqb u "") eqn:Hu; [by eapply IH|].
  apply bind_inv in H as [([]&s2&E2&H)|(?&?&?)]; [|done].
  injection E2 as <-.
  destruct Hinv1 as (read&Htr&Hposts&Hseen).
  assert (Htr2 : urns_of (trace (add_event (EvUrn u) s1)) = urns_of (trace s0) ++ (read ++ [u])).
  { simpl. rewrite urns_of_app, Htr. simpl. by rewrite app_assoc. }
  case_bool_decide as Hin.
  - eapply IH; [|done|exact H]. exists (read ++ [u]). split; [done|].
    rewrite first_seen_snoc, decide_True by (by apply Hseen). split; [done|].
    intros v. rewrite elem_of_app, list_elem_of_singleton, <-Hseen.
    split; [tauto|intros [?| ->]; done].
  - apply bind_inv in H as [(a&s3&E3&H)|(?&?&?)]; [|done].
    apply bind_inv in H as [(t&s4&E4&H)|(?&?&?)]; [|done].
    pose proof (Logs_first_text B nothing AUTHOR_XPATHS card _ _ _ E3) as L3.
    pose proof (Logs_first_text B nothing TEXT_XPATHS card _ _ _ E4) as L4.
    assert (Hinv4 : harvested s0 (posts ++ [{| author := a; text_ := t; url := post_url u |}])
                      ({[u]} ∪ seen) s4).
    { apply (harvested_quiet _ _ _ _ _ (logs_trans _ _ _ _ L3 L4)).
      exists (read ++ [u]). split; [done|].
      rewrite first_seen_snoc, decide_False by (by rewrite <-Hseen). split.
      - rewrite !map_app, Hposts. done.
      - intros v. rewrite elem_of_union, elem_of_singleton, elem_of_app,
          list_elem_of_singleton, Hseen. tauto. }
    destruct (max_posts <=? _) eqn:Hfull.
    + injection H as <- <-. split; [done|]. simpl. rewrite length_app. simpl. lia.
    + apply Z.leb_gt in Hfull. by eapply IH.
Qed.

Lemma harvest_loop_invariant s0 fuel xp max_posts posts seen s r s' :
  harvested s0 posts seen s →
  Z.of_nat (length posts) <= Z.max 0 max_posts →
  harvest_loop B fuel xp max_posts posts seen s = Some (Ret r, s') →
  max_posts <= Z.of_nat (length r) <= Z.max 0 max_posts ∧
  ∃ read, urns_of (trace s') = urns_of (trace s0) ++ read ∧
          map url r = map post_url (first_seen read).
Proof.
  revert posts seen s. induction fuel as [|fuel IH]; intros posts seen s Hinv Hlen; simpl;
    destruct (Z.of_nat (length posts) <? max_posts) eqn:Hlt; try done.
  1,3: apply Z.ltb_ge in Hlt; intros [= <- <-]; rewrite slice_to_all by done;
       (split; [lia|]); destruct Hinv as (read&?&?&_); eauto.
  apply Z.ltb_lt in Hlt. intros H.
  apply bind_inv in H as [(cards&s1&E1&H)|(?&?&?)]; [|done].
  apply bind_inv in H as [(p&s2&E2&H)|(?&?&?)]; [|done].
  apply bind_inv in H as [([]&s3&E3&H)|(?&?&?)]; [|done].
  assert (L1 : logs nothing s s1).
  { revert E1. apply Logs_with_driver. intros d. apply Logs_call. }
  pose proof (Logs_human_scroll B nothing 1 _ _ _ E3) as L3.
  eapply scan_cards_invariant in E2 as [Hinv2 Hlen2];
    [|by eapply harvested_quiet|done].
  eapply IH; [|by apply Z.max_le_iff; right|exact H].
  by eapply harvested_quiet.
Qed.

(** More fuel does not change a run that came back. *)
Lemma harvest_loop_more_fuel fuel xp max_posts posts seen s res :
  harvest_loop B fuel xp max_posts posts seen s = Some res →
  harvest_loop B (S fuel) xp max_posts posts seen s = Some res.
Proof.
  revert posts seen s. induction fuel as [|fuel IH]; intros posts seen s.
  - cbn [harvest_loop]. by destruct (_ <? _).
  - intros H. cbn [harvest_loop] in H. cbn [harvest_loop].
    destruct (_ <? _); [|done]. unfold bind at 1. unfold bind at 1 in H.
    destruct (with_driver _ s) as [[[cards|e] sa]|]; [|done|done].
    unfold bind at 1. unfold bind at 1 in H.
    destruct (scan_cards B max_posts cards posts seen sa) as [[[r|e] sb]|]; [|done|done].
    unfold bind at 1. unfold bind at 1 in H.
    destruct (human_scroll B 1 sb) as [[[[]|e] sc]|]; [|done|done].
    by apply IH.
Qed.

Lemma scrape_hashtag_spec fuel hashtag max_posts s r s' :
  scrape_hashtag B fuel hashtag max_posts s = Some (Ret r, s') →
  (∃ read, urns_of (trace s') = urns_of (trace s) ++ read ∧
           map url r = map post_url (first_seen read)) ∧
  Z.of_nat (length r) <= Z.max 0 max_posts ∧
  ((r = [] ∧ dumps_of (trace s') = dumps_of (trace s) ++ ["no_posts"%string]) ∨
   (max_posts <= Z.of_nat (length r) ∧ dumps_of (trace s') = dumps_of (trace s))).
Proof.
  unfold scrape_hashtag. intros H.
  apply bind_inv in H as [([]&s1&E1&H)|(?&?&?)]; [|done].
  apply bind_inv in H as [([]&s2&E2&H)|(?&?&?)]; [|done].
  apply bind_inv in H as [([]&s3&E3&H)|(?&?&?)]; [|done].
  apply bind_inv in H as [(chosen&s4&E4&H)|(?&?&?)]; [|done].
  assert (L : logs nothing s s4).
  { eapply logs_trans; [|eapply Logs_choose_xpath, E4].
    eapply logs_trans; [|eapply Logs_human_scroll, E3].
    eapply logs_trans; [|eapply Logs_sleep, E2].
    revert E1. apply Logs_with_driver. intros d. apply Logs_call. }
  pose proof (logs_nothing_trace _ _ L) as T.
  destruct chosen as [xp|].
  - pose proof (Logs_harvest_loop B _ _ _ _ _ _ _ _ H) as (_&_&_&_&_&evs&Tevs&Hevs).
    eapply (harvest_loop_invariant s4) in H as (Hlen&read&Htr&Hr).
    + rewrite T in Htr. split; [eauto|]. split; [lia|]. right. split; [lia|].
      rewrite Tevs, dumps_of_app, (dumps_of_urns evs), app_nil_r, T by done. done.
    + exists []. rewrite app_nil_r. split; [done|]. split; [done|]. set_solver.
    + simpl. lia.
  - apply dump_then_ret in H as (T5&_&_&_&[[= ->]|(?&?&_)]); [|done].
    split; [|split; [simpl; lia|]].
    + exists []. rewrite T5, urns_of_app, app_nil_r, T. simpl. by rewrite app_nil_r.
    + left. split; [done|]. by rewrite T5, dumps_of_app, T.
Qed.

End Harvest.

Section Divergence.
Context {W : Type} (B : Browser W).
Implicit Types s : state W.

Lemma call_runs {A} (op : W → outcome A * W) s :
  never_raises op → ∃ a s', call B op s = Some (Ret a, s') ∧ driver s' = driver s.
Proof.
  intros Hop. unfold call. destruct (Hop (world s)) as (a&w&->). by eexists _, _.
Qed.

Lemma driver_call_runs {A} (op : session → W → outcome A * W) s d :
  (∀ d, never_raises (op d)) → driver s = Some d →
  ∃ a s', with_driver (λ d, call B (op d)) s = Some (Ret a, s') ∧ driver s' = Some d.
Proof.
  intros Hop Hd. unfold with_driver. rewrite Hd.
  destruct (call_runs (op d) s (Hop d)) as (a&s'&E&?). exists a, s'. split; congruence.
Qed.

Lemma pause_runs lo hi s :
  ∃ s', bind (uniform B lo hi) (λ t, sleep t) s = Some (Ret (), s') ∧ driver s' = driver s.
Proof.
  unfold uniform, bind, quick, sleep, ret. destruct (random_bits B (world s)). by eexists.
Qed.

Lemma scroll_to_runs js s d :
  (∀ d js, never_raises (execute_script B d js)) →
  driver s = Some d →
  ∃ s', with_driver (λ d, call B (execute_script B d js)) s = Some (Ret (), s') ∧
        driver s' = Some d.
Proof.
  intros Hjs Hd.
  destruct (driver_call_runs (λ d, execute_script B d js) s d
              (λ d, Hjs d js) Hd) as ([]&s'&?&?).
  by exists s'.
Qed.

Lemma navigate_runs u s d :
  (∀ d u, never_raises (get B d u)) →
  driver s = Some d →
  ∃ s', with_driver (λ d, call B (get B d u)) s = Some (Ret (), s') ∧ driver s' = Some d.
Proof.
  intros Hget Hd.
  destruct (driver_call_runs (λ d, get B d u) s d (λ d, Hget d u) Hd) as ([]&s'&?&?).
  by exists s'.
Qed.

Lemma human_scroll_runs passes s d :
  (∀ d js, never_raises (execute_script B d js)) →
  driver s = Some d →
  ∃ s', human_scroll B passes s = Some (Ret (), s') ∧ driver s' = Some d.
Proof.
  intros Hjs. revert s. induction passes as [|passes IH]; intros s Hd; simpl; [by eexists|].
  match goal with |- context [execute_script B _ ?js] =>
    destruct (scroll_to_runs js s d Hjs Hd) as (s1&E1&Hd1) end.
  rewrite (bind_ret _ _ _ _ _ E1).
  destruct (pause_runs 1500 2500 s1) as (s2&E2&Hd2). rewrite (bind_ret _ _ _ _ _ E2).
  match goal with |- context [execute_script B _ ?js] =>
    destruct (scroll_to_runs js s2 d Hjs ltac:(congruence)) as (s3&E3&Hd3) end.
  rewrite (bind_ret _ _ _ _ _ E3).
  destruct (pause_runs 1500 2500 s3) as (s4&E4&Hd4). rewrite (bind_ret _ _ _ _ _ E4).
  apply IH. congruence.
Qed.

Lemma first_text_runs xpaths card s :
  calm B →
  ∃ t s', first_text B xpaths card s = Some (Ret t, s') ∧ driver s' = driver s.
Proof.
  intros Hcalm. revert s. induction xpaths as [|xp xpaths IH]; intros s; simpl; [by eexists _, _|].
  destruct (call_runs (find_in B card xp) s (calm_find_in B Hcalm _ _)) as (els&s1&E1&Hd1).
  rewrite (bind_ret _ _ _ _ _ E1). destruct els as [|el els].
  - destruct (IH s1) as (t&s'&E&?). exists t, s'. split; congruence.
  - destruct (call_runs (text B el) s1 (calm_text B Hcalm _)) as (t&s2&E2&Hd2).
    rewrite (bind_ret _ _ _ _ _ E2). eexists _, _. split; [done|congruence].
Qed.

(** Some candidate always finds a container: a locator is chosen. *)
Lemma choose_xpath_finds xpaths s d :
  calm B →
  driver s = Some d →
  (∃ xp, xp ∈ xpaths ∧ ∀ w, ∃ el els w', find_elements B d xp w = (Ret (el :: els), w')) →
  ∃ xp s', choose_xpath B xpaths s = Some (Ret (Some xp), s') ∧ driver s' = Some d.
Proof.
  intros Hcalm. revert s. induction xpaths as [|xp xpaths IH]; intros s Hd (xp0&Hin&Hfound).
  { by apply elem_of_nil in Hin. }
  simpl.
  destruct (driver_call_runs (λ d, find_elements B d xp) s d
              (λ d, calm_find_elements B Hcalm d _) Hd) as (els&s1&E1&Hd1).
  rewrite (bind_ret _ _ _ _ _ E1). destruct els as [|el els]; [|by eexists _, _].
  apply IH; [done|]. exists xp0. split; [|done].
  apply elem_of_cons in Hin as [->|]; [|done]. exfalso.
  unfold with_driver, call in E1. rewrite Hd in E1.
  destruct (Hfound (world s)) as (el&els&w'&Ew). rewrite Ew in E1. done.
Qed.

(** No candidate ever finds a container: no locator is chosen. *)
Lemma choose_xpath_none xpaths s d :
  driver s = Some d →
  (∀ d xp w, xp ∈ xpaths → ∃ w', find_elements B d xp w = (Ret [], w')) →
  ∃ s', choose_xpath B xpaths s = Some (Ret None, s') ∧ driver s' = Some d.
Proof.
  revert s. induction xpaths as [|xp xpaths IH]; intros s Hd Hnone; simpl; [by eexists|].
  unfold bind at 1, with_driver at 1, call at 1. rewrite Hd.
  destruct (Hnone d xp (world s)) as (w'&->); [by left|].
  apply IH; [done|]. intros d' xp' w Hin. apply Hnone. by right.
Qed.

Section Starved.
Variables (U : gset string) (max_posts : Z).
Hypothesis Hcalm : calm B.
Hypothesis Hids : ∀ el w u w',
  get_attribute B el "data-urn" w = (Ret (Some u), w') → u = ""%string ∨ u ∈ U.
Hypothesis Hfew : Z.of_nat (size U) < max_posts.

(** One pass over the cards returns, and cannot collect more than [U]. *)
Lemma scan_cards_runs cards posts seen s :
  length posts = size seen → seen ⊆ U →
  ∃ posts' seen' s', scan_cards B max_posts cards posts seen s = Some (Ret (posts', seen'), s') ∧
    length posts' = size seen' ∧ seen' ⊆ U ∧ driver s' = driver s.
Proof.
  revert posts seen s. induction cards as [|card cards IH]; intros posts seen s Hlen Hsub; simpl.
  { by eexists _, _, _. }
  destruct (call_runs (get_attribute B card "data-urn") s (calm_get_attribute B Hcalm _ _))
    as (urn&s1&E1&Hd1).
  rewrite (bind_ret _ _ _ _ _ E1).
  assert (Hnext : ∀ s2, driver s2 = driver s →
    ∃ posts' seen' s', scan_cards B max_posts cards posts seen s2 = Some (Ret (posts', seen'), s') ∧
      length posts' = size seen' ∧ seen' ⊆ U ∧ driver s' = driver s).
  { intros s2 Hd2. destruct (IH posts seen s2 Hlen Hsub) as (p&sn&s'&E&?&?&?).
    exists p, sn, s'. repeat split; try done. congruence. }
  destruct urn as [u|]; [|by apply Hnext].
  destruct (String.eqb u "") eqn:Hu; [by apply Hnext|].
  unfold bind at 1, log at 1. case_bool_decide as Hin; [by apply Hnext|].
  assert (HuU : u ∈ U).
  { unfold call in E1. destruct (get_attribute B card "data-urn" (world s)) as [o w'] eqn:Ea.
    injection E1 as -> _. destruct (Hids _ _ _ _ Ea) as [->|?]; [|done].
    by rewrite String.eqb_refl in Hu. }
  destruct (first_text_runs AUTHOR_XPATHS card (add_event (EvUrn u) s1) Hcalm) as (a&s3&E3&Hd3).
  rewrite (bind_ret _ _ _ _ _ E3).
  destruct (first_text_runs TEXT_XPATHS card s3 Hcalm) as (t&s4&E4&Hd4).
  rewrite (bind_ret _ _ _ _ _ E4).
  assert (Hlen' : length (posts ++ [{| author := a; text_ := t; url := post_url u |}])
                  = size ({[u]} ∪ seen)).
  { rewrite length_app, size_union, size_singleton by set_solver. simpl. lia. }
  assert (Hsub' : {[u]} ∪ seen ⊆ U) by set_solver.
  destruct (max_posts <=? _).
  - eexists _, _, _. split; [done|]. repeat split; try done. simpl in *. congruence.
  - destruct (IH _ _ s4 Hlen' Hsub') as (p&sn&s'&E&?&?&?).
    exists p, sn, s'. repeat split; try done. simpl in *. congruence.
Qed.

(** The loop condition never becomes false: every amount of fuel runs out. *)
Lemma harvest_loop_starved fuel xp posts seen s d :
  driver s = Some d → length posts = size seen → seen ⊆ U →
  harvest_loop B fuel xp max_posts posts seen s = None.
Proof.
  revert posts seen s.
  induction fuel as [|fuel IH]; intros posts seen s Hd Hlen Hsub; cbn [harvest_loop].
  all: assert (Hlt : (Z.of_nat (length posts) <? max_posts) = true)
    by (apply Z.ltb_lt; apply subseteq_size in Hsub; lia).
  all: rewrite Hlt.
  { done. }
  destruct (driver_call_runs (λ d, find_elements B d xp) s d
              (λ d, calm_find_elements B Hcalm d _) Hd) as (cards&s1&E1&Hd1).
  rewrite (bind_ret _ _ _ _ _ E1).
  destruct (scan_cards_runs cards posts seen s1 Hlen Hsub) as (p&sn&s2&E2&Hlen2&Hsub2&Hd2).
  rewrite (bind_ret _ _ _ _ _ E2).
  destruct (human_scroll_runs 1 s2 d (calm_execute_script B Hcalm) ltac:(congruence)) as (s3&E3&Hd3).
  rewrite (bind_ret _ _ _ _ _ E3). by apply (IH p sn s3).
Qed.

End Starved.
End Divergence.

Section Claims.
Context {W : Type} (B : Browser W) (P : Builtins).
Implicit Types s : state W.

(** C2: the value returned by [scrape_hashtag] has pairwise distinct post
    URLs (each is built from the post's identifier), is at most [max_posts]
    long, and lists the identifiers read from the cards during the call in
    the order in which each was first seen. *)
Theorem harvest_distinct_capped_first_seen fuel hashtag max_posts s r s' :
  scrape_hashtag B fuel hashtag max_posts s = Some (Ret r, s') →
  NoDup (map url r) ∧
  Z.of_nat (length r) <= Z.max 0 max_posts ∧
  ∃ read, urns_of (trace s') = urns_of (trace s) ++ read ∧
          map url r = map post_url (first_seen read).
Proof.
  intros H. apply scrape_hashtag_spec in H as ((read&Htr&Hr)&Hlen&_).
  split; [|eauto]. rewrite Hr. apply (NoDup_fmap_2 post_url), NoDup_first_seen.
Qed.


(** C5: when the browser never raises, some candidate locator always finds
    a container, and every non-empty identifier the cards ever carry lies in
    a set smaller than [max_posts], the loop of [scrape_hashtag] exhausts
    any amount of fuel: the call never returns. *)
Theorem harvest_never_terminates (U : gset string) hashtag max_posts s d :
  calm B → driver s = Some d →
  (∀ el w u w', get_attribute B el "data-urn" w = (Ret (Some u), w') →
                u = ""%string ∨ u ∈ U) →
  Z.of_nat (size U) < max_posts →
  (∃ xp, xp ∈ POST_CONTAINER_XPATHS ∧
         ∀ w, ∃ el els w', find_elements B d xp w = (Ret (el :: els), w')) →
  ∀ fuel, scrape_hashtag B fuel hashtag max_posts s = None.
Proof.
  intros Hcalm Hd Hids Hfew Hfound fuel. unfold scrape_hashtag.
  match goal with |- context [get B _ ?u] =>
    destruct (navigate_runs B u s d (calm_get B Hcalm) Hd) as (s1&E1&Hd1) end.
  rewrite (bind_ret _ _ _ _ _ E1). unfold bind at 1, sleep at 1.
  destruct (human_scroll_runs B 2 (set_world (world s1) (Z.max 0 3000) s1) d
              (calm_execute_script B Hcalm) Hd1) as (s3&E3&Hd3).
  rewrite (bind_ret _ _ _ _ _ E3).
  destruct (choose_xpath_finds B _ s3 d Hcalm Hd3 Hfound) as (xp&s4&E4&Hd4).
  rewrite (bind_ret _ _ _ _ _ E4).
  eapply harvest_loop_starved; eauto. set_solver.
Qed.

Lemma scrape_hashtag_no_container fuel hashtag max_posts s d :
  sink_works B →
  driver s = Some d →
  (∀ d u, never_raises (get B d u)) →
  (∀ d js, never_raises (execute_script B d js)) →
  (∀ d xp w, xp ∈ POST_CONTAINER_XPATHS → ∃ w', find_elements B d xp w = (Ret [], w')) →
  ∃ s', scrape_hashtag B fuel hashtag max_posts s = Some (Ret [], s') ∧
        dumps_of (trace s') = dumps_of (trace s) ++ ["no_posts"%string].
Proof.
  intros Hsink Hd Hget Hjs Hnone. unfold scrape_hashtag.
  match goal with |- context [get B _ ?u] =>
    destruct (navigate_runs B u s d Hget Hd) as (s1&E1&Hd1) end.
  pose proof (Logs_with_driver nothing _ (λ d, Logs_call B nothing _) _ _ _ E1) as L1.
  rewrite (bind_ret _ _ _ _ _ E1). unfold bind at 1, sleep at 1.
  destruct (human_scroll_runs B 2 (set_world (world s1) (Z.max 0 3000) s1) d Hjs Hd1)
    as (s3&E3&Hd3).
  pose proof (Logs_human_scroll B nothing _ _ _ _ E3) as L3.
  rewrite (bind_ret _ _ _ _ _ E3).
  destruct (choose_xpath_none B _ s3 d Hd3 Hnone) as (s4&E4&Hd4).
  pose proof (Logs_choose_xpath B nothing _ _ _ _ E4) as L4.
  rewrite (bind_ret _ _ _ _ _ E4).
  destruct (dump_debug_runs B "no_posts" s4 Hsink) as (s5&E5&T5).
  rewrite (bind_ret _ _ _ _ _ E5). exists s5. split; [done|].
  rewrite T5, dumps_of_app. simpl. f_equal.
  rewrite (logs_nothing_trace _ _ L4), (logs_nothing_trace _ _ L3). simpl.
  by rewrite (logs_nothing_trace _ _ L1).
Qed.



(** C8: in a process without a session token - and so without a driver -
    every call to [/scrape] and [/comment] is answered 500
    [{"error": "browser init failed"}] and leaves the state, the world and
    the trace as they were: neither the harvest nor the comment sequence is
    entered. *)
Theorem no_token_every_call_fails fuel calls s :
  token_missing s = true → driver s = None →
  serve B P fuel calls s = Some (map (λ _, Ret init_failed_response) calls, s).
Proof.
  intros Htok Hd. induction calls as [|c calls IH]; simpl; [done|].
  assert (handle B P fuel c s = Some (Ret init_failed_response, s)) as ->.
  { destruct c; simpl; unfold scrape, comment;
      by rewrite (bind_ret _ _ _ _ _ (initialize_browser_no_token B s Hd Htok)). }
  by rewrite IH.
Qed.

End Claims.

Section MoreClaims.
Context {W : Type} (B : Browser W) (P : Builtins).
Implicit Types s : state W.

Lemma comment_interaction_ret data s r s' :
  comment_interaction B data s = Some (Ret r, s') → r = success_response.
Proof.
  unfold comment_interaction, after_trigger, after_input. intros H.
  apply bind_inv in H as [(btn&s1&_&H)|(?&?&?)]; [|done].
  apply bind_inv in H as [([]&s2&_&H)|(?&?&?)]; [|done].
  apply bind_inv in H as [(box&s3&_&H)|(?&?&?)]; [|done].
  apply bind_inv in H as [(txt&s4&_&H)|(?&?&?)]; [|done].
  apply bind_inv in H as [(chars&s5&_&H)|(?&?&?)]; [|done].
  apply bind_inv in H as [([]&s6&_&H)|(?&?&?)]; [|done].
  apply bind_inv in H as [(post&s7&_&H)|(?&?&?)]; [|done].
  apply bind_inv in H as [([]&s8&_&H)|(?&?&?)]; [|done].
  by injection H as <- _.
Qed.

Lemma effective_cap_range data : 1 <= effective_cap P data <= 25.
Proof. unfold effective_cap. lia. Qed.

(** C3, as the code has it: the cap passed to the harvest is always within
    1..25 and no value is rejected.  It is [int(max_posts)] clamped to
    1..25 whenever [int()] accepts the value - an integer as it is, a
    boolean as 0 or 1, a finite float truncated toward zero, a string that
    reads as an integer - and 5 when the field is absent or [int()] raises
    (null, arrays, objects, NaN, infinities, other strings). *)
Theorem effective_cap_by_value fields :
  let cap := effective_cap P (JObj fields) in
  let clamp z := Z.max 1 (Z.min z 25) in
  1 <= cap <= 25 ∧
  match assoc "max_posts" fields with
  | None => cap = 5
  | Some (JInt z) => cap = clamp z
  | Some (JBool b) => cap = 1
  | Some (JFloat (FFinite m e)) =>
      cap = clamp (if 0 <=? e then m * 2 ^ e else Z.quot m (2 ^ (- e)))
  | Some (JStr str) =>
      cap = match int_of_str P str with Some z => clamp z | None => 5 end
  | Some (JFloat FNaN) | Some (JFloat (FInf _))
  | Some JNull | Some (JArr _) | Some (JObj _) => cap = 5
  end.
Proof.
  split; [apply effective_cap_range|].
  unfold effective_cap, parse_max_posts, dict_get.
  destruct (assoc "max_posts" fields) as [[|[]| |[| |]| | |]|]; simpl; try done.
  destruct (int_of_str P _); done.
Qed.

(** C10, as the code has it: a call answered by one of the handlers' error
    responses has called [dump_debug] at least once on the way, unless it is
    the init failure of a process that has no token and no driver - there
    [initialize_browser] returns [False] before anything else happens and
    the state is left as it was. *)
Theorem error_response_dumps_unless_no_token fuel c s resp s' :
  handle B P fuel c s = Some (Ret resp, s') → status resp ≠ 200 →
  (driver s = None ∧ token_missing s = true ∧ s' = s ∧ resp = init_failed_response) ∨
  (∃ tags, tags ≠ [] ∧ dumps_of (trace s') = dumps_of (trace s) ++ tags).
Proof.
  intros H Hstatus. destruct c as [req|req]; simpl in H.
  - unfold scrape in H.
    apply bind_inv in H as [(ok&s0&E0&H)|(?&?&?)]; [|done].
    apply initialize_browser_spec in E0 as (_&tags&T0&Hok). destruct ok; simpl in H.
    + destruct Hok as [-> _]. rewrite app_nil_r in T0.
      apply bind_inv in H as [(j&s1&[= _ <-]&H)|(?&?&?)]; [|done].
      apply bind_inv in H as [(h&s2&[= _ <-]&H)|(?&?&?)]; [|done].
      apply bind_inv in H as [(r&s3&E3&H)|(?&?&?)]; [|done].
      apply scrape_hashtag_spec in E3 as (_&_&[[-> T3]|[Hlen _]]).
      * injection H as <- <-. right. exists ["no_posts"%string]. split; [done|].
        by rewrite T3, T0.
      * exfalso. destruct r; [|injection H as <- _; by apply Hstatus].
        match type of Hlen with effective_cap P ?d <= _ =>
          pose proof (effective_cap_range d) end. simpl in Hlen. lia.
    + injection H as <- <-. destruct Hok as [(?&?&?)|?]; [by left|right; eauto].
  - unfold comment in H.
    apply bind_inv in H as [(ok&s0&E0&H)|(?&?&?)]; [|done].
    apply initialize_browser_spec in E0 as (_&tags&T0&Hok). destruct ok; simpl in H.
    + destruct Hok as [-> _]. rewrite app_nil_r in T0.
      apply bind_inv in H as [(data&s1&E1&H)|(?&?&?)]; [|done].
      pose proof (logs_nothing_trace _ _ (Logs_open_post B nothing _ _ _ _ E1)) as T1.
      unfold try_except in H.
      destruct (comment_interaction B data s1) as [[[r|e] s2]|] eqn:E2; [| |done].
      * injection H as <- _. apply comment_interaction_ret in E2 as ->.
        by exfalso; apply Hstatus.
      * pose proof (logs_nothing_trace _ _ (Logs_comment_interaction B nothing _ _ _ _ E2)) as T2.
        destruct (is_timeout e); [|done].
        apply dump_then_ret in H as (T3&_&_&_&_).
        right. exists ["comment_failed"%string]. split; [done|].
        by rewrite T3, dumps_of_app, T2, T1, T0.
    + injection H as <- <-. destruct Hok as [(?&?&?)|?]; [by left|right; eauto].
Qed.

End MoreClaims.

(** C1, on the code: the first call launches a browser, finds the sign-in
    form, dumps "login_page" and returns [False]; the second call finds the
    driver bound and returns [True] at once, with no new launch and no
    detection, although the session never was authenticated. *)
Theorem failed_session_is_reused :
  ∃ s1, initialize_browser (static login_wall) (boot token) = Some (Ret false, s1) ∧
        dumps_of (trace s1) = ["login_page"%string] ∧
        launches_of (trace s1) = 1%nat ∧
        initialize_browser (static login_wall) s1 = Some (Ret true, s1).
Proof. eexists. split; [vm_compute; reflexivity|]. by vm_compute. Qed.

(** C3, counterexample: a [max_posts] of 7.5 is no integer, yet the cap is
    7, not the default 5; a [max_posts] of [true] gives 1. *)
Lemma non_integer_cap_not_default :
  effective_cap no_builtins (JObj [("max_posts"%string, JFloat (FFinite 15 (-1)))]) = 7 ∧
  effective_cap no_builtins (JObj [("max_posts"%string, JBool true)]) = 1 ∧
  effective_cap no_builtins (JObj [("max_posts"%string, JFloat (FFinite 15 (-1)))]) ≠ 5 ∧
  effective_cap no_builtins (JObj [("max_posts"%string, JBool true)]) ≠ 5.
Proof. by vm_compute. Qed.

(** C9, on the code: once the session is up, a [/comment] call whose JSON
    body lacks "post_url" leaves the handler with [KeyError], one whose body
    is not JSON leaves it with the framework's [BadRequest], and a
    [/scrape] call whose feed page fails to load leaves it with the
    driver's exception: none of them is answered by a handler response. *)
Theorem exceptions_leave_the_handlers :
  (∃ s', comment (static feed_page) (json_request (JObj [])) (boot token)
         = Some (Raise KeyError, s')) ∧
  (∃ s', comment (static feed_page) {| get_json := Raise BadRequest |} (boot token)
         = Some (Raise BadRequest, s')) ∧
  (∃ s', scrape (static hashtag_unreachable) no_builtins 1 (json_request (JObj [])) (boot token)
         = Some (Raise WebDriverException, s')).
Proof. repeat split; eexists; vm_compute; reflexivity. Qed.

(** C10, counterexample: without a token [/scrape] answers 500 and
    [dump_debug] has not been called. *)
Lemma no_token_error_without_dump :
  ∃ resp s', handle (static feed_page) no_builtins 1 (POST_scrape (json_request (JObj [])))
               (boot None) = Some (Ret resp, s') ∧
             status resp = 500 ∧ dumps_of (trace s') = [].
Proof. eexists _, _. split; [vm_compute; reflexivity|]. by vm_compute. Qed.

(** A scripted page only raises when a page cannot be opened. *)
Lemma static_calm p : (∀ u, reachable p u = true) → calm (static p).
Proof.
  intros Hr. split; intros; intros w; simpl; try by eexists _, _.
  rewrite Hr. by eexists _, _.
Qed.

(** On a scripted page the dumps can always be written. *)
Lemma static_sink_works p : sink_works (static p).
Proof. split; intros; intros w; by eexists _, _. Qed.

(** Seven distinct posts rendered in the first pass and a cap of five: the
    first five, in the order met. *)
Example seven_rendered_cap_five :
  ∃ r s', scrape_hashtag (static seven_posts) 1 "hiring" 5 ready = Some (Ret r, s') ∧
          map url r = map post_url ["urn:1"; "urn:2"; "urn:3"; "urn:4"; "urn:5"]%string.
Proof. eexists _, _. split; [vm_compute; reflexivity|]. by vm_compute. Qed.

(** C2 at a feed of four cards and a cap of two. *)
Lemma harvest_distinct_capped_first_seen_witness :
  ∃ r s', scrape_hashtag (static feed_page) 1 "hiring" 2 ready = Some (Ret r, s') ∧
    map url r = [post_url "urn:a"; post_url "urn:b"] ∧
    NoDup (map url r) ∧
    Z.of_nat (length r) <= Z.max 0 2 ∧
    ∃ read, urns_of (trace s') = urns_of (trace ready) ++ read ∧
            map url r = map post_url (first_seen read).
Proof.
  eexists _, _. split; [vm_compute; reflexivity|]. split; [vm_compute; reflexivity|].
  eapply (harvest_distinct_capped_first_seen (static feed_page) 1 "hiring" 2 ready).
  vm_compute; reflexivity.
Defined.


(** C5 at a feed that only ever shows two identifiers, with a cap of three. *)
Lemma harvest_never_terminates_witness :
  scrape_hashtag (static feed_page) 40 "hiring" 3 ready = None.
Proof.
  apply (harvest_never_terminates (static feed_page) {[ "urn:a"; "urn:b" ]}%string
           "hiring" 3 ready 0%nat).
  - by apply static_calm.
  - reflexivity.
  - intros el w u w'. simpl.
    destruct el as [|[|[|[|[|el]]]]]; intros [= <-]; try done; auto; right; set_solver.
  - vm_compute. reflexivity.
  - exists "//div[@data-urn]"%string. split; [set_solver|].
    intros w. by eexists _, _, _.
Defined.



(** The same answer when it is the last wait, for the submit control, that
    runs out. *)
Example submit_timeout_same_answer :
  ∃ s', comment (static submit_missing) hello (boot token) = Some (Ret failed_response, s') ∧
        dumps_of (trace s') = ["comment_failed"%string].
Proof. eexists. split; [vm_compute; reflexivity|]. by vm_compute. Qed.

(** Where the screenshot cannot be written, the exception of [dump_debug]
    leaves the routes in place of the 404 and of the 500, after the tag was
    recorded. *)
Example scrape_dump_failure_escapes :
  ∃ s', scrape (without_screenshots (static empty_feed)) no_builtins 1
          (json_request (JObj [])) ready
        = Some (Raise WebDriverException, s') ∧
        dumps_of (trace s') = ["no_posts"%string].
Proof. eexists. split; [vm_compute; reflexivity|]. by vm_compute. Qed.

Example comment_dump_failure_escapes :
  ∃ s', comment (without_screenshots (static empty_feed)) hello ready
        = Some (Raise WebDriverException, s') ∧
        dumps_of (trace s') = ["comment_failed"%string].
Proof. eexists. split; [vm_compute; reflexivity|]. by vm_compute. Qed.

(** At the sign-in form the dump of the detection raises inside the [try],
    and so does the one of the [except] block: the exception leaves
    [initialize_browser], with the driver bound. *)
Example initialize_browser_dump_failure_escapes :
  ∃ s', initialize_browser (without_screenshots (static login_wall)) (boot token)
        = Some (Raise WebDriverException, s') ∧
        driver s' = Some 0%nat ∧
        dumps_of (trace s') = ["login_page"; "init_failed"]%string.
Proof. eexists. split; [vm_compute; reflexivity|]. by vm_compute. Qed.

(** When only the first screenshot fails, the [except] block absorbs the
    exception of the detection's dump and the function returns [False]
    after two dumps. *)
Example initialize_browser_second_dump :
  ∃ s', initialize_browser (first_screenshot_fails login_wall) (boot_counting token)
        = Some (Ret false, s') ∧
        dumps_of (trace s') = ["login_page"; "init_failed"]%string.
Proof. eexists. split; [vm_compute; reflexivity|]. by vm_compute. Qed.

(** C8 at a process started without a token, for one call of each route. *)
Lemma no_token_every_call_fails_witness :
  token_missing (boot None) = true ∧ driver (boot None) = None ∧
  serve (static feed_page) no_builtins 1 [POST_scrape hello; POST_comment hello] (boot None)
  = Some ([Ret init_failed_response; Ret init_failed_response], boot None).
Proof.
  split; [reflexivity|]. split; [reflexivity|].
  apply (no_token_every_call_fails (static feed_page) no_builtins 1
           [POST_scrape hello; POST_comment hello] (boot None)); reflexivity.
Defined.

(** C10 at a [/scrape] call answered 404. *)
Lemma error_response_dumps_unless_no_token_witness :
  ∃ resp s',
    handle (static empty_feed) no_builtins 1 (POST_scrape hello) (boot token)
      = Some (Ret resp, s') ∧
    status resp ≠ 200 ∧
    ((driver (boot token) = None ∧ token_missing (boot token) = true ∧ s' = boot token ∧
      resp = init_failed_response) ∨
     (∃ tags, tags ≠ [] ∧ dumps_of (trace s') = dumps_of (trace (boot token)) ++ tags)).
Proof.
  eexists _, _. split; [vm_compute; reflexivity|]. split; [done|].
  eapply (error_response_dumps_unless_no_token (static empty_feed) no_builtins 1
            (POST_scrape hello) (boot token)); [vm_compute; reflexivity|done].
Defined.

(** ** Further properties of the session controller and of the waits *)

Section SessionMore.
Context {W : Type} (B : Browser W).
Implicit Types s : state W.

(** X1: [initialize_browser] always comes to an end.  Where the dumps can
    be written it returns a boolean, whatever else the browser raises, and
    [True] means a driver is bound.  An exception can leave it only out of
    the [dump_debug("init_failed")] of its [except] block, with a driver
    bound. *)
Theorem initialize_browser_raises_only_from_dump s :
  ∃ o s', initialize_browser B s = Some (o, s') ∧
    (sink_works B → ∃ b, o = Ret b) ∧
    match o with
    | Ret b => b = true → is_Some (driver s')
    | Raise _ =>
        is_Some (driver s') ∧
        ∃ before, dumps_of (trace s') = dumps_of (trace s) ++ before ++ ["init_failed"%string]
    end.
Proof.
  destruct (initialize_browser_ends B s) as (o&s'&E). exists o, s'. split; [done|]. split.
  - intros Hsink. destruct (initialize_browser_returns B s Hsink) as (b&s2&E2).
    exists b. congruence.
  - apply initialize_browser_spec in E as (_&tags&T&Ho). destruct o as [[]|e].
    + by destruct Ho.
    + done.
    + destruct Ho as (?&before&->). eauto.
Qed.

Lemma any_present_none xpaths s d :
  driver s = Some d →
  (∀ xp w, xp ∈ xpaths → ∃ w', find_elements B d xp w = (Ret [], w')) →
  ∃ s', any_present B xpaths s = Some (Ret false, s') ∧ driver s' = Some d.
Proof.
  revert s. induction xpaths as [|xp xpaths IH]; intros s Hd Hnone; simpl; [by eexists|].
  unfold bind at 1, with_driver at 1, call at 1. rewrite Hd.
  destruct (Hnone xp (world s)) as (w'&->); [by left|].
  apply IH; [done|]. intros xp' w Hin. apply Hnone. by right.
Qed.

Lemma wait_for_any_loop_none polls xpaths deadline s d o s' :
  driver s = Some d →
  (∀ xp w, xp ∈ xpaths → ∃ w', find_elements B d xp w = (Ret [], w')) →
  wait_for_any_loop B polls xpaths deadline s = Some (o, s') → o = Ret false.
Proof.
  intros Hd Hnone. revert s Hd. induction polls as [|polls IH]; intros s Hd; simpl;
    unfold bind at 1; unfold time_ms at 1; destruct (clock s <? deadline); try done.
  1,3: by intros [= <- _].
  destruct (any_present_none xpaths s d Hd Hnone) as (s1&E1&Hd1).
  rewrite (bind_ret _ _ _ _ _ E1). unfold bind, sleep. by apply IH.
Qed.

(** X2: with a driver bound and no candidate ever matching, [wait_for_any]
    returns [False], and only once the whole timeout has passed. *)
Theorem wait_for_any_gives_up xpaths timeout s d :
  driver s = Some d →
  (∀ xp w, xp ∈ xpaths → ∃ w', find_elements B d xp w = (Ret [], w')) →
  ∃ s', wait_for_any B xpaths timeout s = Some (Ret false, s') ∧
        clock s + timeout <= clock s'.
Proof.
  intros Hd Hnone. destruct (Total_wait_for_any B xpaths timeout s) as (o&s'&E).
  assert (o = Ret false) as ->.
  { unfold wait_for_any, bind, time_ms in E. by eapply wait_for_any_loop_none. }
  exists s'. split; [done|]. by eapply wait_for_any_false.
Qed.

(** X3: a timeout of zero or less never polls: [wait_for_any] returns
    [False] at once and leaves the browser alone, even if a candidate would
    match. *)
Theorem wait_for_any_no_time xpaths timeout s :
  timeout <= 0 → wait_for_any B xpaths timeout s = Some (Ret false, s).
Proof.
  intros Ht. unfold wait_for_any, bind, time_ms.
  destruct (poll_bound timeout); simpl; unfold bind, time_ms;
    (destruct (clock s <? clock s + timeout) eqn:Hlt; [apply Z.ltb_lt in Hlt; lia|done]).
Qed.

Lemma pause_at_least lo hi s o s' :
  0 <= lo <= hi →
  bind (uniform B lo hi) (λ t, sleep t) s = Some (o, s') →
  o = Ret () ∧ clock s + lo <= clock s' <= clock s + hi.
Proof.
  intros Hr. unfold uniform, bind, quick, sleep, ret.
  destruct (random_bits B (world s)) as [r w]. intros [= <- <-]. split; [done|]. simpl.
  pose proof (Z.mod_pos_bound (Z.of_N r) (hi - lo + 1) ltac:(lia)). lia.
Qed.

(** X4: a [human_scroll] that returns has paused at least 3 s per pass, and
    has neither logged anything nor touched the globals. *)
Theorem human_scroll_takes_its_time passes s s' :
  human_scroll B passes s = Some (Ret (), s') →
  clock s + 3000 * Z.of_nat passes <= clock s' ∧ logs nothing s s'.
Proof.
  intros H. split; [|by eapply Logs_human_scroll].
  revert s H. induction passes as [|passes IH]; intros s H.
  { injection H as <-. lia. }
  cbn [human_scroll] in H.
  apply bind_inv in H as [([]&s1&E1&H)|(?&?&?)]; [|done].
  apply bind_inv in H as [([]&s2&E2&H)|(?&?&?)]; [|done].
  apply bind_inv in H as [([]&s3&E3&H)|(?&?&?)]; [|done].
  apply bind_inv in H as [([]&s4&E4&H)|(?&?&?)]; [|done].
  apply IH in H.
  apply pause_at_least in E2 as [_ ?]; [|lia]. apply pause_at_least in E4 as [_ ?]; [|lia].
  pose proof (Logs_with_driver nothing _ (λ d, Logs_call B nothing _) _ _ _ E1)
    as (_&_&_&_&?&_).
  pose proof (Logs_with_driver nothing _ (λ d, Logs_call B nothing _) _ _ _ E3)
    as (_&_&_&_&?&_).
  lia.
Qed.

End SessionMore.

Lemma launches_of_app tr1 tr2 : launches_of (tr1 ++ tr2) = (launches_of tr1 + launches_of tr2)%nat.
Proof. unfold launches_of. by rewrite filter_app, length_app. Qed.

Lemma launches_of_none evs : Forall no_launch evs → launches_of evs = 0%nat.
Proof.
  unfold launches_of. induction 1 as [|e evs He _ IH]; [done|].
  rewrite filter_cons. unfold no_launch in He. by rewrite He.
Qed.

Section Launches.
Context {W : Type} (B : Browser W).
Implicit Types s : state W.

Lemma logs_clock ok s s' : logs ok s s' → clock s <= clock s'.
Proof. by intros (_&_&_&_&?&_). Qed.

Lemma logs_launches ok s s' :
  (∀ e, ok e → no_launch e) → logs ok s s' → launches_of (trace s') = launches_of (trace s).
Proof.
  intros Hok (_&_&_&_&_&evs&->&Hevs). rewrite launches_of_app, (launches_of_none evs); [lia|].
  eapply Forall_impl; eauto.
Qed.

Lemma is_dump_no_launch e : is_dump e → no_launch e.
Proof. by intros [tag ->]. Qed.

Lemma is_urn_no_launch e : is_urn e → no_launch e.
Proof. by intros [u ->]. Qed.

(** The dump of [detect_login], by its result.  An exception comes out of
    a wait, before any dump, or out of the dump itself. *)
Lemma detect_login_tags s o s' :
  detect_login B s = Some (o, s') →
  match o with
  | Ret true => dumps_of (trace s') = dumps_of (trace s)
  | Ret false =>
      ∃ tag, tag ∈ ["checkpoint"; "login_page"; "unknown_state"]%string ∧
             dumps_of (trace s') = dumps_of (trace s) ++ [tag]
  | Raise _ =>
      dumps_of (trace s') = dumps_of (trace s) ∨
      ¬ sink_works B ∧
      ∃ tag, tag ∈ ["checkpoint"; "login_page"; "unknown_state"]%string ∧
             dumps_of (trace s') = dumps_of (trace s) ++ [tag]
  end.
Proof.
  unfold detect_login. intros H.
  assert (Hq : ∀ xs t (sa sb : state W) o1,
    wait_for_any B xs t sa = Some (o1, sb) → dumps_of (trace sb) = dumps_of (trace sa)).
  { intros ????? E. apply Logs_wait_for_any with (ok:=nothing) in E.
    by rewrite (logs_nothing_trace _ _ E). }
  assert (Hd : ∀ tag (sa sb : state W) o1,
    bind (dump_debug B tag) (λ _, ret false) sa = Some (o1, sb) →
    dumps_of (trace sb) = dumps_of (trace sa) ++ [tag] ∧
    (o1 = Ret false ∨ ¬ sink_works B ∧ ∃ e, o1 = Raise e)).
  { intros ???? E. split.
    - apply dump_then_ret in E as (T&_). by rewrite T, dumps_of_app.
    - destruct o1 as [b|e]; [|right; split; [|by eexists]].
      + apply dump_then_ret in E as (_&_&_&_&[?|(?&?&_)]); [by left|done].
      + intros Hsink. by apply (dump_then_ret_sink B _ _ _ _ _ Hsink) in E. }
  assert (Hfin : ∀ tag (sa sb : state W) o1,
    tag ∈ ["checkpoint"; "login_page"; "unknown_state"]%string →
    dumps_of (trace sa) = dumps_of (trace s) →
    bind (dump_debug B tag) (λ _, ret false) sa = Some (o1, sb) →
    match o1 with
    | Ret true => dumps_of (trace sb) = dumps_of (trace s)
    | Ret false =>
        ∃ tag, tag ∈ ["checkpoint"; "login_page"; "unknown_state"]%string ∧
               dumps_of (trace sb) = dumps_of (trace s) ++ [tag]
    | Raise _ =>
        dumps_of (trace sb) = dumps_of (trace s) ∨
        ¬ sink_works B ∧
        ∃ tag, tag ∈ ["checkpoint"; "login_page"; "unknown_state"]%string ∧
               dumps_of (trace sb) = dumps_of (trace s) ++ [tag]
    end).
  { intros tag sa sb o1 Htag Hsa E. apply Hd in E as [T [->|(Hns&e&->)]]; rewrite Hsa in T.
    - eauto.
    - right. eauto. }
  apply bind_inv in H as [(ok&sa&E1&H)|(e&E1&->)]; apply Hq in E1; [|by left].
  destruct ok. { by injection H as <- <-. }
  apply bind_inv in H as [(cp&sb&E2&H)|(e&E2&->)]; apply Hq in E2; [|left; congruence].
  destruct cp.
  { apply Hfin in H; [done|set_solver|congruence]. }
  apply bind_inv in H as [(lp&sc&E3&H)|(e&E3&->)]; apply Hq in E3; [|left; congruence].
  destruct lp; (apply Hfin in H; [done|set_solver|congruence]).
Qed.

Lemma initialize_browser_clock s o s' :
  initialize_browser B s = Some (o, s') → clock s <= clock s'.
Proof.
  unfold initialize_browser. destruct (driver s); [by intros [= _ <-]|].
  destruct (token_missing s); [by intros [= _ <-]|].
  unfold try_except.
  destruct (bind (launch_and_inject B) _ s) as [[[b|e] s1]|] eqn:E; [| |done].
  all: assert (clock s <= clock s1).
  1,3: apply bind_inv in E as [([]&s0&E0&E)|(e'&E0&_)];
       apply launch_and_inject_spec in E0 as (_&_&?&_); try done;
       apply Logs_detect_login, logs_clock in E; lia.
  - by intros [= _ <-].
  - simpl. intros E2. apply dump_then_ret in E2 as (_&_&_&?&_). lia.
Qed.

(** X5: when Chrome cannot be started, [initialize_browser] returns
    [False] after one launch attempt and one call of [dump_debug] with tag
    "init_failed" that writes nothing; no driver is bound, so the next call
    starts over. *)
Theorem failed_start_binds_nothing s e w :
  driver s = None → token_missing s = false →
  Chrome B (chrome_options (HEADLESS s)) (world s) = (Raise e, w) →
  ∃ s', initialize_browser B s = Some (Ret false, s') ∧
        driver s' = None ∧ world s' = w ∧
        launches_of (trace s') = S (launches_of (trace s)) ∧
        dumps_of (trace s') = dumps_of (trace s) ++ ["init_failed"%string].
Proof.
  intros Hd Htok HC. unfold initialize_browser, try_except. rewrite Hd, Htok.
  assert (launch_and_inject B s
          = Some (Raise e, set_world w (Z.of_N (latency B w))
                             (add_event (EvLaunch (chrome_options (HEADLESS s))) s))) as El.
  { unfold launch_and_inject, bind, log, call. simpl. by rewrite HC. }
  rewrite (bind_raise _ _ _ _ _ El). simpl.
  unfold dump_debug, bind, log. simpl. rewrite Hd. simpl.
  eexists. split; [done|]. simpl. repeat split; try done.
  - rewrite !launches_of_app. change (launches_of [EvLaunch _]) with 1%nat.
    change (launches_of [EvDump _]) with 0%nat. lia.
  - rewrite !dumps_of_app. simpl. by rewrite app_nil_r.
Qed.

(** X6: a call of [initialize_browser] that gets past the guard and the
    token check and returns [False] has launched exactly once and has
    called [dump_debug] once or twice: once with one of the four tags of
    the function, or, when the dump of the detection raised and the one of
    the [except] block did not, with a detection tag and then
    "init_failed".  Where the dumps can be written it is exactly once. *)
Theorem failed_initialisation_dump_tags s s' :
  driver s = None → token_missing s = false →
  initialize_browser B s = Some (Ret false, s') →
  launches_of (trace s') = S (launches_of (trace s)) ∧
  ∃ tag, tag ∈ INIT_TAGS ∧
    (dumps_of (trace s') = dumps_of (trace s) ++ [tag] ∨
     ¬ sink_works B ∧
     tag ∈ ["checkpoint"; "login_page"; "unknown_state"]%string ∧
     dumps_of (trace s') = dumps_of (trace s) ++ [tag; "init_failed"%string]).
Proof.
  intros Hd Htok. unfold initialize_browser, try_except. rewrite Hd, Htok.
  destruct (bind (launch_and_inject B) _ s) as [[[b|e] s1]|] eqn:E; [| |done].
  - intros [= -> <-]. apply bind_inv in E as [([]&s0&E0&E)|(?&?&?)]; [|done].
    apply launch_and_inject_spec in E0 as (_&_&_&T0&_).
    pose proof (logs_launches _ _ _ is_dump_no_launch (Logs_detect_login B _ _ _ E)) as L.
    apply detect_login_tags in E as (tag&Htag&T). split.
    + rewrite L, T0, launches_of_app. change (launches_of [EvLaunch _]) with 1%nat. lia.
    + exists tag. split; [unfold INIT_TAGS; set_solver|]. left.
      rewrite T, T0, dumps_of_app. simpl. by rewrite app_nil_r.
  - simpl. intros E2. apply dump_then_ret in E2 as (T2&_).
    assert (launches_of (trace s1) = S (launches_of (trace s)) ∧
            (dumps_of (trace s1) = dumps_of (trace s) ∨
             ¬ sink_works B ∧
             ∃ tag, tag ∈ ["checkpoint"; "login_page"; "unknown_state"]%string ∧
                    dumps_of (trace s1) = dumps_of (trace s) ++ [tag])) as [L1 T1].
    { apply bind_inv in E as [([]&s0&E0&E)|(e'&E0&_)];
        apply launch_and_inject_spec in E0 as (_&_&_&T0&_).
      - pose proof (logs_launches _ _ _ is_dump_no_launch (Logs_detect_login B _ _ _ E)) as L.
        apply detect_login_tags in E. rewrite L, T0, launches_of_app.
        change (launches_of [EvLaunch _]) with 1%nat. split; [lia|].
        rewrite T0, dumps_of_app in E. simpl dumps_of at 2 in E.
        rewrite app_nil_r in E. exact E.
      - rewrite T0, launches_of_app, dumps_of_app.
        change (launches_of [EvLaunch _]) with 1%nat. simpl dumps_of at 2.
        rewrite app_nil_r. split; [lia|by left]. }
    split.
    + rewrite T2, launches_of_app, L1. change (launches_of [EvDump _]) with 0%nat. lia.
    + rewrite T2, dumps_of_app. change (dumps_of [EvDump "init_failed"]) with ["init_failed"%string].
      destruct T1 as [T1|(Hns&tag&Htag&T1)]; rewrite T1.
      * exists "init_failed"%string. split; [unfold INIT_TAGS; set_solver|by left].
      * exists tag. split; [unfold INIT_TAGS; set_solver|]. right.
        split; [done|]. split; [done|]. by rewrite <- app_assoc.
Qed.

End Launches.

(** ** Further properties of the harvest *)

Lemma lstrip_by_head p s :
  match lstrip_by p s with String c _ => p c = false | EmptyString => True end.
Proof.
  induction s as [|c s IH]; simpl; [done|]. destruct (p c) eqn:Hc; [done|]. simpl. done.
Qed.

Lemma rstrip_by_idemp p s : rstrip_by p (rstrip_by p s) = rstrip_by p s.
Proof.
  induction s as [|c s IH]; simpl; [done|].
  destruct (rstrip_by p s) as [|c' r] eqn:Hr.
  - destruct (p c) eqn:Hc; simpl; [done|]. by rewrite Hc.
  - simpl in *. by rewrite IH.
Qed.

Lemma rstrip_by_keeps_head p c s :
  p c = false → ∃ r, rstrip_by p (String c s) = String c r.
Proof.
  intros Hc. simpl. destruct (rstrip_by p s); [|by eexists]. rewrite Hc. by eexists.
Qed.

Lemma strip_idemp s : strip (strip s) = strip s.
Proof.
  unfold strip. pose proof (lstrip_by_head is_space s) as Hh.
  destruct (lstrip_by is_space s) as [|c t] eqn:Hl; [done|].
  destruct (rstrip_by_keeps_head is_space c t Hh) as (r&Hr). rewrite Hr.
  assert (lstrip_by is_space (String c r) = String c r) as -> by (simpl; by rewrite Hh).
  by rewrite <-Hr, rstrip_by_idemp.
Qed.

Section HarvestMore.
Context {W : Type} (B : Browser W).
Implicit Types s : state W.

Lemma first_text_trimmed xpaths card s t s' :
  first_text B xpaths card s = Some (Ret t, s') → trimmed t.
Proof.
  revert s. induction xpaths as [|xp xpaths IH]; intros s; simpl.
  { by intros [= <- _]. }
  intros H. apply bind_inv in H as [(els&s1&_&H)|(?&?&?)]; [|done].
  destruct els as [|el els]; [by eapply IH|].
  apply bind_inv in H as [(t0&s2&_&H)|(?&?&?)]; [|done].
  injection H as <- _. apply strip_idemp.
Qed.

Lemma scan_cards_posts_ok max_posts cards posts seen s r s' :
  Forall post_ok posts →
  scan_cards B max_posts cards posts seen s = Some (Ret r, s') → Forall post_ok r.1.
Proof.
  revert posts seen s. induction cards as [|card cards IH]; intros posts seen s Hok; simpl.
  { by intros [= <- _]. }
  intros H. apply bind_inv in H as [(urn&s1&_&H)|(?&?&?)]; [|done].
  destruct urn as [u|]; [|by eapply IH].
  destruct (String.eqb u "") eqn:Hu; [by eapply IH|].
  apply bind_inv in H as [([]&s2&_&H)|(?&?&?)]; [|done].
  case_bool_decide; [by eapply IH|].
  apply bind_inv in H as [(a&s3&E3&H)|(?&?&?)]; [|done].
  apply bind_inv in H as [(t&s4&E4&H)|(?&?&?)]; [|done].
  assert (Forall post_ok (posts ++ [{| author := a; text_ := t; url := post_url u |}])) as Hok'.
  { apply Forall_app. split; [done|]. constructor; [|done]. repeat split; simpl.
    - exact (first_text_trimmed AUTHOR_XPATHS card _ _ _ E3).
    - exact (first_text_trimmed TEXT_XPATHS card _ _ _ E4).
    - exists u. split; [|done]. intros ->. by rewrite String.eqb_refl in Hu. }
  destruct (max_posts <=? _); [by injection H as <- _|by eapply IH].
Qed.

Lemma harvest_loop_posts_ok fuel xp max_posts posts seen s r s' :
  Forall post_ok posts →
  harvest_loop B fuel xp max_posts posts seen s = Some (Ret r, s') → Forall post_ok r.
Proof.
  revert posts seen s. induction fuel as [|fuel IH]; intros posts seen s Hok;
    cbn [harvest_loop]; destruct (_ <? _); try done.
  1,3: intros [= <- _]; unfold slice_to; destruct (0 <=? max_posts); by apply Forall_take.
  intros H. apply bind_inv in H as [(cards&s1&_&H)|(?&?&?)]; [|done].
  apply bind_inv in H as [(p&s2&E2&H)|(?&?&?)]; [|done].
  apply bind_inv in H as [([]&s3&_&H)|(?&?&?)]; [|done].
  eapply IH; [|exact H]. by eapply scan_cards_posts_ok.
Qed.

(** X7: every post that [scrape_hashtag] returns has a trimmed author and
    a trimmed text, and its URL is the update URL of a non-empty
    identifier. *)
Theorem harvested_posts_are_well_formed fuel hashtag max_posts s r s' :
  scrape_hashtag B fuel hashtag max_posts s = Some (Ret r, s') → Forall post_ok r.
Proof.
  unfold scrape_hashtag. intros H.
  apply bind_inv in H as [([]&s1&_&H)|(?&?&?)]; [|done].
  apply bind_inv in H as [([]&s2&_&H)|(?&?&?)]; [|done].
  apply bind_inv in H as [([]&s3&_&H)|(?&?&?)]; [|done].
  apply bind_inv in H as [(chosen&s4&_&H)|(?&?&?)]; [|done].
  destruct chosen as [xp|].
  - by eapply harvest_loop_posts_ok.
  - apply bind_inv in H as [([]&s5&_&H)|(?&?&?)]; [|done]. by injection H as <- _.
Qed.

(** X8: with a cap of at least one, [scrape_hashtag] returns either no
    post at all - no container was found, and "no_posts" was dumped - or
    exactly [max_posts] posts without any dump; never a shorter list. *)
Theorem harvest_is_all_or_nothing fuel hashtag max_posts s r s' :
  1 <= max_posts →
  scrape_hashtag B fuel hashtag max_posts s = Some (Ret r, s') →
  (r = [] ∧ dumps_of (trace s') = dumps_of (trace s) ++ ["no_posts"%string]) ∨
  (Z.of_nat (length r) = max_posts ∧ dumps_of (trace s') = dumps_of (trace s)).
Proof.
  intros Hcap H. apply scrape_hashtag_spec in H as (_&Hlen&[?|[? ?]]); [by left|].
  right. split; [lia|done].
Qed.

End HarvestMore.

(** ** Further properties of the routes *)

Section RoutesMore.
Context {W : Type} (B : Browser W) (P : Builtins).
Implicit Types s : state W.

Lemma bind_ext {A C} (m : M W A) (f g : A → M W C) s :
  (∀ a s1, f a s1 = g a s1) → bind m f s = bind m g s.
Proof. intros Hfg. unfold bind. by destruct (m s) as [[[a|e] s1]|]. Qed.

Lemma Logs_scrape_hashtag (ok : event → Prop) fuel hashtag max_posts :
  (∀ u, ok (EvUrn u)) → ok (EvDump "no_posts") →
  Logs ok (scrape_hashtag B fuel hashtag max_posts).
Proof.
  intros Hu Hd. unfold scrape_hashtag. frame;
    auto using Logs_human_scroll, Logs_choose_xpath, Logs_dump_debug.
  eapply Logs_weaken; [|apply Logs_harvest_loop]. by intros e [u ->].
Qed.

(** What the two routes do once the guard of [initialize_browser] has
    passed. *)
Lemma handle_bound fuel c s d o s' :
  driver s = Some d → handle B P fuel c s = Some (o, s') → logs no_launch s s'.
Proof.
  intros Hd H. destruct c as [req|req]; simpl in H.
  - unfold scrape in H. rewrite (bind_ret _ _ _ _ _ (initialize_browser_bound B s d Hd)) in H.
    change (negb true) with false in H. cbv beta iota in H.
    refine ((_ : Logs no_launch _) s o s' H). frame. by apply Logs_scrape_hashtag.
  - unfold comment in H. rewrite (bind_ret _ _ _ _ _ (initialize_browser_bound B s d Hd)) in H.
    change (negb true) with false in H. cbv beta iota in H.
    refine ((_ : Logs no_launch _) s o s' H). frame;
      auto using Logs_open_post, Logs_comment_interaction.
    by apply Logs_dump_debug.
Qed.

(** The answers of the routes, each with the dumps that came with it. *)
Lemma handle_cases fuel c s resp s' :
  handle B P fuel c s = Some (Ret resp, s') →
  (resp = init_failed_response ∧ driver s = None) ∨
  (resp = no_posts_response ∧ dumps_of (trace s') = dumps_of (trace s) ++ ["no_posts"%string]) ∨
  (resp = failed_response ∧
   dumps_of (trace s') = dumps_of (trace s) ++ ["comment_failed"%string]) ∨
  (resp = success_response ∧ dumps_of (trace s') = dumps_of (trace s)) ∨
  (∃ results, resp = posts_response results ∧ 1 <= Z.of_nat (length results) <= 25 ∧
              dumps_of (trace s') = dumps_of (trace s)).
Proof.
  intros H.
  assert (Hfalse : ∀ s0, initialize_browser B s = Some (Ret false, s0) → driver s = None).
  { intros s0 E. destruct (driver s) as [d|] eqn:Hd; [|done].
    by rewrite (initialize_browser_bound B s d Hd) in E. }
  destruct c as [req|req]; simpl in H.
  - unfold scrape in H.
    apply bind_inv in H as [(ok&s0&E0&H)|(?&?&?)]; [|done].
    destruct ok; simpl in H; [|injection H as <- _; left; eauto].
    apply initialize_browser_spec in E0 as (_&tags&T0&->&_). rewrite app_nil_r in T0.
    apply bind_inv in H as [(j&s1&[= _ <-]&H)|(?&?&?)]; [|done].
    apply bind_inv in H as [(h&s2&[= _ <-]&H)|(?&?&?)]; [|done].
    apply bind_inv in H as [(r&s3&E3&H)|(?&?&?)]; [|done].
    match type of E3 with scrape_hashtag _ _ _ (effective_cap P ?d) _ = _ =>
      pose proof (effective_cap_range P d) as Hcap end.
    apply scrape_hashtag_spec in E3 as (_&Hlen&[[-> T3]|[Hge T3]]).
    + injection H as <- <-. right. left. by rewrite T3, T0.
    + destruct r as [|p r]; [simpl in Hge; lia|]. injection H as <- <-.
      do 4 right. eexists. split; [done|]. split; [lia|]. by rewrite T3, T0.
  - unfold comment in H.
    apply bind_inv in H as [(ok&s0&E0&H)|(?&?&?)]; [|done].
    destruct ok; simpl in H; [|injection H as <- _; left; eauto].
    apply initialize_browser_spec in E0 as (_&tags&T0&->&_). rewrite app_nil_r in T0.
    apply bind_inv in H as [(data&s1&E1&H)|(?&?&?)]; [|done].
    pose proof (logs_nothing_trace _ _ (Logs_open_post B nothing _ _ _ _ E1)) as T1.
    unfold try_except in H.
    destruct (comment_interaction B data s1) as [[[r|e] s2]|] eqn:E2; [| |done].
    + pose proof (logs_nothing_trace _ _ (Logs_comment_interaction B nothing _ _ _ _ E2)) as T2.
      injection H as <- <-. apply comment_interaction_ret in E2 as ->.
      do 3 right. left. by rewrite T2, T1, T0.
    + pose proof (logs_nothing_trace _ _ (Logs_comment_interaction B nothing _ _ _ _ E2)) as T2.
      destruct (is_timeout e); [|done].
      apply dump_then_ret in H as (T3&_&_&_&[[= <-]|(?&?&_)]); [|done].
      do 2 right. left. by rewrite T3, dumps_of_app, T2, T1, T0.
Qed.

(** X9: whenever a route answers, the answer is one of five: the three
    error bodies, the success body of [/comment], or an array of between 1
    and 25 posts. *)
Theorem answers_have_five_shapes fuel c s resp s' :
  handle B P fuel c s = Some (Ret resp, s') →
  resp = init_failed_response ∨ resp = no_posts_response ∨ resp = failed_response ∨
  resp = success_response ∨
  ∃ results, resp = posts_response results ∧ 1 <= Z.of_nat (length results) <= 25.
Proof.
  intros H. apply handle_cases in H as [[? _]|[[? _]|[[? _]|[[? _]|(r&?&?&_)]]]]; eauto 10.
Qed.

(** X10: an answer with status 200 comes without any call of
    [dump_debug]. *)
Theorem success_dumps_nothing fuel c s resp s' :
  handle B P fuel c s = Some (Ret resp, s') → status resp = 200 →
  dumps_of (trace s') = dumps_of (trace s).
Proof.
  intros H Hst.
  apply handle_cases in H as [[-> _]|[[-> _]|[[-> _]|[[_ ?]|(r&_&_&?)]]]]; done.
Qed.

(** X11: once a driver is bound it stays bound: however many calls follow,
    none launches a browser, none rebinds [driver], and none is answered
    "browser init failed". *)
Theorem bound_session_is_kept fuel calls s d os s' :
  driver s = Some d →
  serve B P fuel calls s = Some (os, s') →
  driver s' = Some d ∧ launches_of (trace s') = launches_of (trace s) ∧
  Forall (λ o, o ≠ Ret init_failed_response) os.
Proof.
  revert s os. induction calls as [|c calls IH]; intros s os Hd; simpl.
  { by intros [= <- <-]. }
  destruct (handle B P fuel c s) as [[o s1]|] eqn:E; [|done].
  destruct (serve B P fuel calls s1) as [[os1 s2]|] eqn:E1; [|done].
  intros [= <- <-].
  pose proof (handle_bound _ _ _ _ _ _ Hd E) as L.
  pose proof (logs_launches _ _ _ (λ e H, H) L) as Hl. destruct L as (_&_&Hd1&_).
  destruct (IH s1 os1 ltac:(congruence) E1) as (?&?&?).
  split; [done|]. split; [congruence|]. constructor; [|done].
  intros ->. apply handle_cases in E as [[_ ?]|[[? _]|[[? _]|[[? _]|(r&?&_)]]]];
    [congruence|discriminate..].
Qed.

(** X12: a [/scrape] body that is falsy in Python - null, false, 0, an
    empty string, array or object - or an object without "hashtag" and
    "max_posts" harvests the hashtag "hiring" with a cap of 5. *)
Theorem scrape_defaults fuel req j s :
  get_json req = Ret j →
  truthy j = false ∨
    (∃ fields, j = JObj fields ∧ assoc "hashtag" fields = None ∧
               assoc "max_posts" fields = None) →
  scrape B P fuel req s =
  bind (initialize_browser B)
    (λ ok, if negb ok then ret init_failed_response
           else bind (scrape_hashtag B fuel "hiring" 5)
                  (λ results, match results with
                              | [] => ret no_posts_response
                              | _ => ret (posts_response results)
                              end)) s.
Proof.
  intros Hj Hbody. unfold scrape. apply bind_ext. intros ok s0.
  destruct ok; [|done]. change (negb true) with false. cbv beta iota.
  unfold bind at 1, lift at 1. rewrite Hj.
  destruct Hbody as [->|(fields&->&Hh&Hm)].
  - reflexivity.
  - destruct (truthy (JObj fields)); unfold bind at 1, lift at 1, dict_get at 1;
      unfold effective_cap, parse_max_posts, dict_get; rewrite ?Hh, ?Hm; reflexivity.
Qed.

(** X13: a [/scrape] body that is truthy but no JSON object - a number, a
    non-empty string or array, true - makes the handler raise
    [AttributeError] right after [initialize_browser], before any
    navigation. *)
Theorem scrape_rejects_non_objects fuel req j s s0 :
  get_json req = Ret j → truthy j = true → (∀ fields, j ≠ JObj fields) →
  initialize_browser B s = Some (Ret true, s0) →
  scrape B P fuel req s = Some (Raise AttributeError, s0).
Proof.
  intros Hj Ht Hno Hinit. unfold scrape. rewrite (bind_ret _ _ _ _ _ Hinit).
  change (negb true) with false. cbv beta iota.
  unfold bind at 1, lift at 1. rewrite Hj, Ht.
  unfold bind at 1, lift at 1. destruct j; try done. by destruct (Hno fields).
Qed.

(** X14: when the body of a [/comment] call has no "post_url" to read -
    the key is missing, or the body is no JSON object - the handler raises
    what the subscript raises ([KeyError] or [TypeError]) right after
    [initialize_browser], before any navigation. *)
Theorem comment_needs_post_url req j e s s0 :
  get_json req = Ret j → subscript j "post_url" = Raise e →
  initialize_browser B s = Some (Ret true, s0) →
  comment B req s = Some (Raise e, s0).
Proof.
  intros Hj He Hinit. unfold comment. rewrite (bind_ret _ _ _ _ _ Hinit).
  change (negb true) with false. cbv beta iota.
  unfold open_post. unfold bind at 1 2 3, lift at 1. rewrite Hj.
  unfold lift. by rewrite He.
Qed.

(** X15: the handler of [/comment] catches [TimeoutException] only: any
    other exception raised inside the interaction leaves the handler, and
    [dump_debug] is not called. *)
Theorem comment_catches_timeouts_only req s s0 data s1 e s2 :
  initialize_browser B s = Some (Ret true, s0) →
  open_post B req s0 = Some (Ret data, s1) →
  comment_interaction B data s1 = Some (Raise e, s2) → is_timeout e = false →
  comment B req s = Some (Raise e, s2) ∧ dumps_of (trace s2) = dumps_of (trace s).
Proof.
  intros Hinit Hopen Hraise He.
  pose proof (initialize_browser_spec B _ _ _ Hinit) as (_&tags&T0&->&_).
  rewrite app_nil_r in T0.
  pose proof (logs_nothing_trace _ _ (Logs_open_post B nothing _ _ _ _ Hopen)) as T1.
  pose proof (logs_nothing_trace _ _ (Logs_comment_interaction B nothing _ _ _ _ Hraise)) as T2.
  split; [|by rewrite T2, T1, T0].
  unfold comment. rewrite (bind_ret _ _ _ _ _ Hinit).
  change (negb true) with false. cbv beta iota.
  rewrite (bind_ret _ _ _ _ _ Hopen). unfold try_except. by rewrite Hraise, He.
Qed.

Lemma type_keys_pace box chars s s' :
  type_keys B box chars s = Some (Ret (), s') →
  clock s + 50 * Z.of_nat (length chars) <= clock s'.
Proof.
  revert s. induction chars as [|ch chars IH]; intros s; simpl.
  { intros [= <-]. lia. }
  intros H. apply bind_inv in H as [([]&s1&E1&H)|(?&?&?)]; [|done].
  apply bind_inv in H as [([]&s2&E2&H)|(?&?&?)]; [|done].
  apply IH in H. apply (Logs_call B nothing), logs_clock in E1.
  apply pause_at_least in E2 as [_ ?]; lia.
Qed.

(** X16: a [/comment] call that answers success on a comment string has
    taken at least the 3 s settle time plus 50 ms for each character
    typed. *)
Theorem comment_is_paced req data txt s s' :
  get_json req = Ret data → subscript data "comment" = Ret (JStr txt) →
  comment B req s = Some (Ret success_response, s') →
  clock s + 3000 + 50 * Z.of_nat (String.length txt) <= clock s'.
Proof.
  intros Hj Htxt H. unfold comment in H.
  apply bind_inv in H as [(ok&s0&E0&H)|(?&?&?)]; [|done].
  apply initialize_browser_clock in E0. destruct ok; simpl in H; [|done].
  apply bind_inv in H as [(data'&s1&E1&H)|(?&?&?)]; [|done].
  assert (data' = data ∧ clock s0 + 3000 <= clock s1) as [-> ?].
  { unfold open_post in E1.
    apply bind_inv in E1 as [(d1&sa&Ea&E1)|(?&?&?)]; [|done].
    unfold lift in Ea. rewrite Hj in Ea. injection Ea as <- <-.
    apply bind_inv in E1 as [(u&sb&[= _ <-]&E1)|(?&?&?)]; [|done].
    apply bind_inv in E1 as [([]&sc&Ec&E1)|(?&?&?)]; [|done].
    apply bind_inv in E1 as [([]&sd&[= <-]&E1)|(?&?&?)]; [|done].
    injection E1 as <- <-. split; [done|]. simpl.
    pose proof (Logs_with_driver nothing _ (λ d, Logs_call B nothing _) _ _ _ Ec) as L.
    apply logs_clock in L. lia. }
  unfold try_except in H.
  destruct (comment_interaction B data s1) as [[[r|e] s2]|] eqn:E2; [| |done].
  2:{ destruct (is_timeout e); [|done].
      by apply dump_then_ret in H as (_&_&_&_&[?|(?&?&_)]). }
  injection H as _ <-.
  unfold comment_interaction, after_trigger, after_input in E2.
  apply bind_inv in E2 as [(btn&sa&Ea&E2)|(?&?&?)]; [|done].
  apply bind_inv in E2 as [([]&sb&Eb&E2)|(?&?&?)]; [|done].
  apply bind_inv in E2 as [(box&sc&Ec&E2)|(?&?&?)]; [|done].
  apply bind_inv in E2 as [(t&sd&Ed&E2)|(?&?&?)]; [|done].
  unfold lift in Ed. rewrite Htxt in Ed. injection Ed as <- <-.
  apply bind_inv in E2 as [(chars&se&[= <- <-]&E2)|(?&?&?)]; [|done].
  apply bind_inv in E2 as [([]&sf&Ef&E2)|(?&?&?)]; [|done].
  apply bind_inv in E2 as [(post&sg&Eg&E2)|(?&?&?)]; [|done].
  apply bind_inv in E2 as [([]&sh&Eh&E2)|(?&?&?)]; [|done].
  injection E2 as _ <-.
  apply type_keys_pace in Ef. rewrite length_map in Ef.
  assert (length (list_ascii_of_string txt) = String.length txt) as Hlen.
  { clear. induction txt; simpl; congruence. }
  rewrite Hlen in Ef.
  pose proof (logs_clock _ _ _ (Logs_with_wait nothing _ (λ d t, Logs_call B nothing _) _ _ _ Ea)).
  pose proof (logs_clock _ _ _ (Logs_call B nothing _ _ _ _ Eb)).
  pose proof (logs_clock _ _ _ (Logs_with_wait nothing _ (λ d t, Logs_call B nothing _) _ _ _ Ec)).
  pose proof (logs_clock _ _ _ (Logs_with_wait nothing _ (λ d t, Logs_call B nothing _) _ _ _ Eg)).
  pose proof (logs_clock _ _ _ (Logs_call B nothing _ _ _ _ Eh)).
  lia.
Qed.

End RoutesMore.

(** ** The further properties at concrete runs *)

(** X2 at the checkpoint signals of a signed-in page. *)
Lemma wait_for_any_gives_up_witness :
  ∃ s', wait_for_any (static empty_feed) CHECKPOINT 3000 ready = Some (Ret false, s') ∧
        clock ready + 3000 <= clock s'.
Proof.
  apply (wait_for_any_gives_up (static empty_feed) CHECKPOINT 3000 ready 0%nat).
  - reflexivity.
  - intros xp w Hin. exists w. unfold CHECKPOINT in Hin. rewrite !elem_of_cons in Hin.
    destruct Hin as [->|[->|Hin]]; try done. by apply elem_of_nil in Hin.
Defined.

(** X3 at a timeout of zero on a page where the first candidate matches. *)
Lemma wait_for_any_no_time_witness :
  wait_for_any (static feed_page) LOGIN_OK 0 ready = Some (Ret false, ready).
Proof. apply (wait_for_any_no_time (static feed_page) LOGIN_OK 0 ready). lia. Defined.

(** X4 at two passes. *)
Lemma human_scroll_takes_its_time_witness :
  ∃ s', human_scroll (static feed_page) 2 ready = Some (Ret (), s') ∧
        clock ready + 3000 * Z.of_nat 2 <= clock s' ∧ logs nothing ready s'.
Proof.
  eexists. split; [vm_compute; reflexivity|].
  apply (human_scroll_takes_its_time (static feed_page) 2 ready). vm_compute. reflexivity.
Defined.

(** X5 at a machine where Chrome does not start. *)
Lemma failed_start_binds_nothing_witness :
  ∃ s', initialize_browser (static no_chrome) (boot token) = Some (Ret false, s') ∧
        driver s' = None ∧ world s' = () ∧
        launches_of (trace s') = S (launches_of (trace (boot token))) ∧
        dumps_of (trace s') = dumps_of (trace (boot token)) ++ ["init_failed"%string].
Proof.
  apply (failed_start_binds_nothing (static no_chrome) (boot token) WebDriverException ());
    reflexivity.
Defined.

(** X6 at a session that shows the sign-in form, on a machine whose first
    screenshot fails. *)
Lemma failed_initialisation_dump_tags_witness :
  ∃ s', initialize_browser (first_screenshot_fails login_wall) (boot_counting token)
        = Some (Ret false, s') ∧
        launches_of (trace s') = S (launches_of (trace (boot_counting token))) ∧
        ∃ tag, tag ∈ INIT_TAGS ∧
          (dumps_of (trace s') = dumps_of (trace (boot_counting token)) ++ [tag] ∨
           ¬ sink_works (first_screenshot_fails login_wall) ∧
           tag ∈ ["checkpoint"; "login_page"; "unknown_state"]%string ∧
           dumps_of (trace s')
           = dumps_of (trace (boot_counting token)) ++ [tag; "init_failed"%string]).
Proof.
  eexists. split; [vm_compute; reflexivity|].
  apply (failed_initialisation_dump_tags (first_screenshot_fails login_wall)
           (boot_counting token));
    [reflexivity|reflexivity|vm_compute; reflexivity].
Defined.

(** X7 at a feed of four cards and a cap of two. *)
Lemma harvested_posts_are_well_formed_witness :
  ∃ r s', scrape_hashtag (static feed_page) 1 "hiring" 2 ready = Some (Ret r, s') ∧
          Forall post_ok r.
Proof.
  eexists _, _. split; [vm_compute; reflexivity|].
  eapply (harvested_posts_are_well_formed (static feed_page) 1 "hiring" 2 ready).
  vm_compute. reflexivity.
Defined.

(** X8 at a feed of four cards and a cap of two. *)
Lemma harvest_is_all_or_nothing_witness :
  ∃ r s', scrape_hashtag (static feed_page) 1 "hiring" 2 ready = Some (Ret r, s') ∧
    ((r = [] ∧ dumps_of (trace s') = dumps_of (trace ready) ++ ["no_posts"%string]) ∨
     (Z.of_nat (length r) = 2 ∧ dumps_of (trace s') = dumps_of (trace ready))).
Proof.
  eexists _, _. split; [vm_compute; reflexivity|].
  eapply (harvest_is_all_or_nothing (static feed_page) 1 "hiring" 2 ready);
    [lia|vm_compute; reflexivity].
Defined.

(** X9 at a [/scrape] call on a feed without containers. *)
Lemma answers_have_five_shapes_witness :
  ∃ resp s',
    handle (static empty_feed) no_builtins 1 (POST_scrape hello) ready = Some (Ret resp, s') ∧
    (resp = init_failed_response ∨ resp = no_posts_response ∨ resp = failed_response ∨
     resp = success_response ∨
     ∃ results, resp = posts_response results ∧ 1 <= Z.of_nat (length results) <= 25).
Proof.
  eexists _, _. split; [vm_compute; reflexivity|].
  eapply (answers_have_five_shapes (static empty_feed) no_builtins 1 (POST_scrape hello) ready).
  vm_compute. reflexivity.
Defined.

(** X10 at a [/comment] call that goes through. *)
Lemma success_dumps_nothing_witness :
  ∃ resp s',
    handle (static feed_page) no_builtins 1 (POST_comment hello) ready = Some (Ret resp, s') ∧
    status resp = 200 ∧ dumps_of (trace s') = dumps_of (trace ready).
Proof.
  eexists _, _. split; [vm_compute; reflexivity|]. split; [reflexivity|].
  eapply (success_dumps_nothing (static feed_page) no_builtins 1 (POST_comment hello) ready);
    [vm_compute; reflexivity|reflexivity].
Defined.

(** X11 at one call of each route on a signed-in session. *)
Lemma bound_session_is_kept_witness :
  ∃ os s',
    serve (static empty_feed) no_builtins 1 [POST_scrape hello; POST_comment hello] ready
      = Some (os, s') ∧
    driver s' = Some 0%nat ∧ launches_of (trace s') = launches_of (trace ready) ∧
    Forall (λ o, o ≠ Ret init_failed_response) os.
Proof.
  eexists _, _. split; [vm_compute; reflexivity|].
  eapply (bound_session_is_kept (static empty_feed) no_builtins 1
            [POST_scrape hello; POST_comment hello] ready 0%nat);
    [reflexivity|vm_compute; reflexivity].
Defined.

(** X12 at a body that is JSON null. *)
Lemma scrape_defaults_witness :
  scrape (static feed_page) no_builtins 1 (json_request JNull) ready =
  bind (initialize_browser (static feed_page))
    (λ ok, if negb ok then ret init_failed_response
           else bind (scrape_hashtag (static feed_page) 1 "hiring" 5)
                  (λ results, match results with
                              | [] => ret no_posts_response
                              | _ => ret (posts_response results)
                              end)) ready.
Proof.
  apply (scrape_defaults (static feed_page) no_builtins 1 (json_request JNull) JNull ready);
    [reflexivity|by left].
Defined.

(** X13 at a body that is the number 7. *)
Lemma scrape_rejects_non_objects_witness :
  scrape (static feed_page) no_builtins 1 (json_request (JInt 7)) ready
  = Some (Raise AttributeError, ready).
Proof.
  apply (scrape_rejects_non_objects (static feed_page) no_builtins 1
           (json_request (JInt 7)) (JInt 7) ready ready); try reflexivity.
  intros fields. discriminate.
Defined.

(** X14 at an empty JSON object. *)
Lemma comment_needs_post_url_witness :
  comment (static feed_page) (json_request (JObj [])) ready = Some (Raise KeyError, ready).
Proof.
  apply (comment_needs_post_url (static feed_page) (json_request (JObj [])) (JObj [])
           KeyError ready ready); reflexivity.
Defined.

(** X15 at a body without "comment": the [KeyError] is raised inside the
    interaction, after the comment button was clicked. *)
Lemma comment_catches_timeouts_only_witness :
  ∃ s2, comment (static feed_page) body_without_comment ready = Some (Raise KeyError, s2) ∧
        dumps_of (trace s2) = dumps_of (trace ready).
Proof.
  eexists.
  eapply (comment_catches_timeouts_only (static feed_page) body_without_comment ready ready);
    [reflexivity|vm_compute; reflexivity|vm_compute; reflexivity|reflexivity].
Defined.

(** X16 at a comment of two characters. *)
Lemma comment_is_paced_witness :
  ∃ s', comment (static feed_page) hello ready = Some (Ret success_response, s') ∧
        clock ready + 3000 + 50 * Z.of_nat (String.length "hi") <= clock s'.
Proof.
  eexists. split; [vm_compute; reflexivity|].
  eapply (comment_is_paced (static feed_page) hello _ "hi" ready);
    [reflexivity|reflexivity|vm_compute; reflexivity].
Defined.
